(** * digitalearthau: the stacker job-size estimator and pipeline stages,
      and the tile-sync dependency-chained submitter.

    A shallow embedding of [digitalearthau/stacker.py] and
    [scripts/submit-tile-sync.py].  Python integers are [Z], a Python [str]
    is the list of its code points, [bytes] are a Rocq [string], exceptions
    are values of [Py.exn] carried by [Py.result], and the external
    collaborators (file system, [qsub], the datacube library, the task
    runner) are fields of explicit environment records whose answers the
    functions consume and whose invocations they log. *)

From Stdlib Require Import ZArith Lia String Ascii List Bool DecimalString.
From Stdlib Require DecimalPos DecimalZ.
From stdpp Require Import gmap strings list sorting.

Local Open Scope Z_scope.

(* ===================================================================== *)
(** * The fragment of Python the two scripts rely on                      *)
(* ===================================================================== *)

Module Py.

(** ** Text

    A [str] is a sequence of Unicode code points; the literals of the two
    scripts are ASCII and enter through [lit]. *)
Definition str : Type := list N.

Definition lit (s : string) : str := N_of_ascii <$> list_ascii_of_string s.

(** [bytes] values are Rocq strings (sequences of octets). *)
Definition bytes : Type := string.

(** Exceptions that reach the two scripts.  [SystemExit] is what
    [sys.exit] raises; [External] stands for whatever an external
    collaborator raises (a [CalledProcessError] from [check_output], an
    error of the datacube library, a failure of the task runner...). *)
Inductive exn : Type :=
| ZeroDivisionError
| OverflowError
| NameError (name : string)
| ValueError (msg : str)
| UnicodeDecodeError
| SystemExit (code : Z)
| External (what : string).

Inductive result (A : Type) : Type :=
| Ok (a : A)
| Raise (e : exn).
Arguments Ok {A} a.
Arguments Raise {A} e.

Definition bind {A B : Type} (r : result A) (k : A -> result B) : result B :=
  match r with
  | Ok a => k a
  | Raise e => Raise e
  end.

(** Exit status of the interpreter for a script whose top level finished
    with [r]: 0 after a normal return, the code of an uncaught
    [SystemExit], and 1 after any other uncaught exception. *)
Definition exit_status {A : Type} (r : result A) : Z :=
  match r with
  | Ok _ => 0
  | Raise (SystemExit code) => code
  | Raise _ => 1
  end.

(** ** Binary64 floats

    [Finite m e] is the number [m * 2^e]; several pairs denote the same
    number, which is harmless because the scripts only ever divide floats
    and take their ceiling.  The sign of zero is not tracked for the same
    reason. *)
Inductive float : Type :=
| Finite (m e : Z)
| Infinity (negative : bool)
| NaN.

(** Nearest integer to [n / d] for [0 <= n] and [0 < d], ties to even. *)
Definition rne (n d : Z) : Z :=
  let q := n / d in
  let r := n mod d in
  if 2 * r <? d then q
  else if d <? 2 * r then q + 1
  else if Z.even q then q else q + 1.

(** [floor (log2 (p / d))] for [0 < p] and [0 < d]. *)
Definition ilog2_ratio (p d : Z) : Z :=
  let l := Z.log2 p - Z.log2 d in
  let below := if 0 <=? l then p <? d * 2 ^ l else p * 2 ^ (- l) <? d in
  if below then l - 1 else l.

(** The binary64 nearest to [num / den] ([0 < den]), ties to even: 53 bits
    of mantissa, least exponent -1074 (subnormals), and [Infinity] from
    [2^1024] on. *)
Definition round64 (num den : Z) : float :=
  if num =? 0 then Finite 0 0
  else
    let p := Z.abs num in
    let e := Z.max (ilog2_ratio p den - 52) (-1074) in
    let m := if 0 <=? e then rne p (den * 2 ^ e) else rne (p * 2 ^ (- e)) den in
    if (971 <? e) || ((e =? 971) && (m =? 2 ^ 53)) then Infinity (num <? 0)
    else Finite (Z.sgn num * m) e.

(** The least magnitude that rounds to an infinity: half an ulp below
    [2^1024]. *)
Definition float_limit : Z := 2 ^ 1024 - 2 ^ 970.

(** [a / b] on two [int]s: the correctly rounded quotient;
    [ZeroDivisionError] for [b = 0], [OverflowError] when the quotient is
    too large for a float. *)
Definition int_truediv (a b : Z) : result float :=
  if b =? 0 then Raise ZeroDivisionError
  else
    match round64 (Z.sgn b * a) (Z.abs b) with
    | Infinity _ => Raise OverflowError
    | x => Ok x
    end.

(** [float(k)] for an [int] [k]. *)
Definition float_of_int (k : Z) : result float :=
  match round64 k 1 with
  | Infinity _ => Raise OverflowError
  | x => Ok x
  end.

Definition is_zero (x : float) : bool :=
  match x with
  | Finite m _ => m =? 0
  | _ => false
  end.

Definition is_negative (x : float) : bool :=
  match x with
  | Finite m _ => m <? 0
  | Infinity s => s
  | NaN => false
  end.

(** [x / y] on two floats: IEEE 754 division, except that a zero divisor
    raises.  Overflow gives an infinity here, not an exception. *)
Definition float_truediv (x y : float) : result float :=
  if is_zero y then Raise ZeroDivisionError
  else
    match x, y with
    | NaN, _ | _, NaN => Ok NaN
    | Infinity _, Infinity _ => Ok NaN
    | Infinity s, Finite _ _ => Ok (Infinity (xorb s (is_negative y)))
    | Finite _ _, Infinity _ => Ok (Finite 0 0)
    | Finite m1 e1, Finite m2 e2 =>
        let num := m1 * 2 ^ Z.max (e1 - e2) 0 in
        let den := m2 * 2 ^ Z.max (e2 - e1) 0 in
        Ok (round64 (Z.sgn den * num) (Z.abs den))
    end.

(** [x / k] with a float [x] and an [int] [k]: [k] is converted first. *)
Definition float_truediv_int (x : float) (k : Z) : result float :=
  bind (float_of_int k) (float_truediv x).

(** [math.ceil] on a float. *)
Definition ceil (x : float) : result Z :=
  match x with
  | Finite m e => Ok (if 0 <=? e then m * 2 ^ e else - ((- m) / 2 ^ (- e)))
  | Infinity _ => Raise OverflowError
  | NaN => Raise (ValueError (lit "cannot convert float NaN to integer"))
  end.

(** ** Operations on [str] *)

(** [str(n)] for an [int]. *)
Definition str_of_int (n : Z) : str :=
  lit (NilZero.string_of_int (Z.to_int n)).

(** Truth value of a [str]: the empty string is false. *)
Definition truthy (s : str) : bool :=
  match s with
  | [] => false
  | _ :: _ => true
  end.

(** The code points [str.strip()] removes (Unicode white space). *)
Definition is_space (c : N) : bool :=
  (((9 <=? c) && (c <=? 13)) || ((28 <=? c) && (c <=? 32))
   || (c =? 133) || (c =? 160) || (c =? 5760)
   || ((8192 <=? c) && (c <=? 8202)) || (c =? 8232) || (c =? 8233)
   || (c =? 8239) || (c =? 8287) || (c =? 12288))%N.

Fixpoint lstrip_by (f : N -> bool) (s : str) : str :=
  match s with
  | [] => []
  | c :: s' => if f c then lstrip_by f s' else s
  end.

Fixpoint rstrip_by (f : N -> bool) (s : str) : str :=
  match s with
  | [] => []
  | c :: s' =>
      match rstrip_by f s' with
      | [] => if f c then [] else [c]
      | t => c :: t
      end
  end.

(** [s.strip()] *)
Definition strip (s : str) : str := rstrip_by is_space (lstrip_by is_space s).

(** [s.strip(chars)]: the leading and trailing code points that occur in
    [chars] are removed. *)
Definition strip_chars (chars s : str) : str :=
  let f c := bool_decide (c ∈ chars) in
  rstrip_by f (lstrip_by f s).

(** [s.split(sep)[0]] for a one-character separator: the part of [s]
    before the first [sep]. *)
Fixpoint split_head (sep : N) (s : str) : str :=
  match s with
  | [] => []
  | c :: s' => if c =? sep then [] else c :: split_head sep s'
  end%N.

(** [b.decode('utf-8')]: strict UTF-8 (no overlong forms, no surrogates,
    nothing above U+10FFFF). *)
Definition is_cont (b : N) : bool := ((128 <=? b) && (b <=? 191))%N.

Fixpoint decode_octets (bs : list N) : option str :=
  match bs with
  | [] => Some []
  | b0 :: r0 =>
      if (b0 <? 128)%N then cons b0 <$> decode_octets r0
      else if ((194 <=? b0) && (b0 <=? 223))%N then
        match r0 with
        | b1 :: r1 =>
            if is_cont b1
            then cons ((b0 - 192) * 64 + (b1 - 128))%N <$> decode_octets r1
            else None
        | _ => None
        end
      else if ((224 <=? b0) && (b0 <=? 239))%N then
        match r0 with
        | b1 :: b2 :: r2 =>
            if is_cont b1 && is_cont b2
               && (negb (b0 =? 224) || (160 <=? b1))%N
               && (negb (b0 =? 237) || (b1 <=? 159))%N
            then cons ((b0 - 224) * 4096 + (b1 - 128) * 64 + (b2 - 128))%N
                   <$> decode_octets r2
            else None
        | _ => None
        end
      else if ((240 <=? b0) && (b0 <=? 244))%N then
        match r0 with
        | b1 :: b2 :: b3 :: r3 =>
            if is_cont b1 && is_cont b2 && is_cont b3
               && (negb (b0 =? 240) || (144 <=? b1))%N
               && (negb (b0 =? 244) || (b1 <=? 143))%N
            then cons ((b0 - 240) * 262144 + (b1 - 128) * 4096
                       + (b2 - 128) * 64 + (b3 - 128))%N
                   <$> decode_octets r3
            else None
        | _ => None
        end
      else None
  end.

Definition decode_utf8 (b : bytes) : result str :=
  match decode_octets (N_of_ascii <$> list_ascii_of_string b) with
  | Some s => Ok s
  | None => Raise UnicodeDecodeError
  end.

(** ** Programs with effects

    A program threads a state [S] (the outside world and the log of what
    was done to it) and ends in a value or an exception; the state reached
    when an exception is raised is kept. *)
Definition prog (S A : Type) : Type := S -> S * result A.

Definition ret {S A : Type} (a : A) : prog S A := fun s => (s, Ok a).

Definition raise {S A : Type} (e : exn) : prog S A := fun s => (s, Raise e).

Definition pbind {S A B : Type} (k : A -> prog S B) (p : prog S A) : prog S B :=
  fun s =>
    match p s with
    | (s', Ok a) => k a s'
    | (s', Raise e) => (s', Raise e)
    end.

(** A pure computation that may raise. *)
Definition lift {S A : Type} (r : result A) : prog S A := fun s => (s, r).

(** [try: body finally: fin] *)
Definition try_finally {S A : Type} (body : prog S A) (fin : prog S unit) : prog S A :=
  fun s =>
    let '(s1, r) := body s in
    match fin s1 with
    | (s2, Ok _) => (s2, r)
    | (s2, Raise e) => (s2, Raise e)
    end.

End Py.

Export Py (exn(..), result(..)).

#[export] Instance exn_eq_dec : EqDecision exn.
Proof. solve_decision. Defined.
#[export] Instance result_eq_dec {A} `{EqDecision A} : EqDecision (result A).
Proof. solve_decision. Defined.

#[export] Instance result_ret : MRet result := @Ok.
#[export] Instance result_bind : MBind result := fun A B k r => Py.bind r k.
#[export] Instance prog_ret {S} : MRet (Py.prog S) := @Py.ret S.
#[export] Instance prog_bind {S} : MBind (Py.prog S) := @Py.pbind S.

(* ===================================================================== *)
(** * digitalearthau/stacker.py                                           *)
(* ===================================================================== *)

Module Stacker.

(** The local variables of [estimate_job_size] at its [return]. *)
Record job_size_locals : Type := {
  nodes : Z;
  tasks_per_cpu : Z;
  wall_time_mins : Py.str
}.

Definition max_nodes : Z := 20.
Definition cores_per_node : Z := 16.
Definition task_time_mins : Z := 5.

(** Lines 201-204: the node count. *)
Definition estimate_nodes (num_tasks : Z) : result Z :=
  if num_tasks <? max_nodes * cores_per_node then
    x ← Py.int_truediv num_tasks cores_per_node;
    y ← Py.float_truediv_int x 4;
    Py.ceil y
  else Ok max_nodes.

(** Lines 194-207: everything [estimate_job_size] computes before it
    returns. *)
Definition estimate_job_size_locals (num_tasks : Z) : result job_size_locals :=
  nodes ← estimate_nodes num_tasks;
  q ← Py.int_truediv num_tasks (nodes * cores_per_node);
  tasks_per_cpu ← Py.ceil q;
  let wall_time_mins := Py.str_of_int (task_time_mins * tasks_per_cpu) ++ Py.lit "m" in
  Ok {| nodes := nodes; tasks_per_cpu := tasks_per_cpu; wall_time_mins := wall_time_mins |}.

(** [estimate_job_size]: the computed pair is dropped (the [return] of it
    is commented out) and the constant pair returned. *)
Definition estimate_job_size (num_tasks : Z) : result (Z * Py.str) :=
  _ ← estimate_job_size_locals num_tasks;
  Ok (1, Py.lit "120m").

#[global] Instance job_size_locals_eq_dec : EqDecision job_size_locals.
Proof. solve_decision. Defined.

(** The largest task count up to which the float quotient
    [num_tasks / (nodes * cores_per_node)] has the ceiling of the exact
    quotient, and the least task count whose quotient is too large for a
    float. *)
Definition exact_limit : Z := max_nodes * cores_per_node * 2 ^ 45.
Definition overflow_threshold : Z := max_nodes * cores_per_node * Py.float_limit.

(** *** The documented sizing policy

    These three definitions follow the words of the specification, in
    exact arithmetic: below [max_nodes * cores_per_node] tasks one node per
    4 cores' worth of tasks, rounded up, otherwise [max_nodes];
    tasks-per-core is [ceil (count / (nodes * cores_per_node))] and the wall
    time is tasks-per-core times the minutes per task. *)
Definition ceil_div (a b : Z) : Z := - (- a / b).

Definition documented_nodes (n : Z) : Z :=
  if n <? 20 * 16 then ceil_div n (16 * 4) else 20.

Definition documented_tasks_per_core (n : Z) : Z :=
  ceil_div n (documented_nodes n * 16).

Definition documented_wall_minutes (n : Z) : Z :=
  documented_tasks_per_core n * 5.

(** The values computed before the [return] are the documented ones. *)
Definition follows_documented_formula (n : Z) : Prop :=
  estimate_job_size_locals n =
    Ok {| nodes := documented_nodes n;
          tasks_per_cpu := documented_tasks_per_core n;
          wall_time_mins := Py.str_of_int (documented_wall_minutes n) ++ Py.lit "m" |}.

(** ** The pipeline stages [generate] and [run] *)

(** Names bound in the global namespace of the module: by its import
    statements (lines 23-42), its assignments and its definitions. *)
Definition module_globals : list string :=
  [ "logging"; "datetime"; "partial"; "ceil"; "Path"; "Tuple"; "click";
    "Query"; "Index"; "ui"; "task_app"; "stacker"; "__version__"; "paths";
    "serialise"; "with_qsub_runner"; "QSubLauncher"; "TaskRunner";
    "TaskDescription"; "init_task_app"; "submit_subjob";
    "tag_option"; "_LOG"; "APP_NAME"; "cli"; "submit"; "generate";
    "_make_config_and_description"; "estimate_job_size"; "run" ]%string.

(** Evaluating a global name that is no builtin: [NameError] unless the
    module binds it. *)
Definition lookup_global (name : string) : result unit :=
  if bool_decide (name ∈ module_globals) then Ok tt else Raise (NameError name).

(** Arguments handed to the logger. *)
Inductive pyval : Type :=
| VInt (n : Z)
| VStr (s : Py.str).

(** The keyword arguments of [qsub_params=dict(...)] in [generate]. *)
Record qsub_params : Type := {
  qp_name : Py.str;
  qp_mem : Py.str;
  qp_wd : bool;
  qp_nodes : Z;
  qp_walltime : Py.str
}.

(** What a stage does to the outside, in order. *)
Inductive event : Type :=
| LogInfo (fmt : string) (args : list pyval)
| SubmitSubjob (name : Py.str) (command : list Py.str) (params : qsub_params)
| CheckExistingFiles
| RunnerCall
| RunnerStop.

Section Stages.

(** The application configuration, the task description and the task list
    are opaque values of the datacube and runner libraries. *)
Context {Config TaskDesc Tasks : Type}.

(** The collaborators of the two stages: each field is the outcome of the
    call of that name. *)
Record env : Type := {
  load_structure : Py.str -> result TaskDesc;
  read_document : TaskDesc -> result Config;
  with_task_fields : Config -> TaskDesc -> Config;
  make_stacker_config : Config -> result Config;
  save_tasks : Config -> TaskDesc -> result Z;
  submit_subjob : Py.str -> list Py.str -> qsub_params -> result unit;
  load_tasks : TaskDesc -> result (Config * Tasks);
  check_existing_files : Tasks -> result unit;
  runner : TaskDesc -> Tasks -> Config -> result unit;
  runner_stop : result unit
}.

Variable E : env.

Definition stage (A : Type) : Type := Py.prog (list event) A.

Definition emit (ev : event) : stage unit := fun tr => (tr ++ [ev], Ok tt).

(** An external call: it is logged, then its outcome is delivered. *)
Definition call {A : Type} (ev : event) (r : result A) : stage A :=
  emit ev;; Py.lift r.

(** Lines 175-188. *)
Definition _make_config_and_description (task_desc_path : Py.str)
  : result (Config * TaskDesc) :=
  task_desc ← load_structure E task_desc_path;
  config ← read_document E task_desc;
  config ← make_stacker_config E (with_task_fields E config task_desc);
  Ok (config, task_desc).

(** Lines 128-172.  The result is the value returned: [Some 0] for
    [return 0], [None] when the body runs to its end. *)
Definition generate (task_desc_file : Py.str) (no_qsub : bool) (tag : Py.str)
  : stage (option Z) :=
  emit (LogInfo "Tag: %s" [VStr tag]);;
  '(config, task_desc) ← Py.lift (_make_config_and_description task_desc_file);
  num_tasks_saved ← Py.lift (save_tasks E config task_desc);
  emit (LogInfo "Found %d tasks" [VInt num_tasks_saved]);;
  (if num_tasks_saved =? 0 then
     emit (LogInfo "No tasks. Finishing." []);;
     Py.lift (lookup_global "sys");;
     Py.raise (SystemExit 0)
   else mret tt);;
  '(nodes, walltime) ← Py.lift (estimate_job_size num_tasks_saved);
  emit (LogInfo "Will request %d nodes and %s time" [VInt nodes; VStr walltime]);;
  if no_qsub then
    emit (LogInfo "Skipping submission due to --no-qsub" []);;
    mret (Some 0)
  else
    let command :=
      [ Py.lit "run"; Py.lit "-vv";
        Py.lit "--task-desc"; task_desc_file;
        Py.lit "--celery"; Py.lit "pbs-launch";
        Py.lit "--tag"; tag ] in
    let params :=
      {| qp_name := Py.lit "stack-run-" ++ tag;
         qp_mem := Py.lit "small";
         qp_wd := true;
         qp_nodes := nodes;
         qp_walltime := walltime |} in
    call (SubmitSubjob (Py.lit "run") command params)
         (submit_subjob E (Py.lit "run") command params);;
    mret None.

(** Lines 226-250. *)
Definition run (dry_run : bool) (tag task_desc_file : Py.str) : stage (option Z) :=
  emit (LogInfo "Starting Fractional Cover processing..." []);;
  emit (LogInfo "Tag: %r" [VStr tag]);;
  task_desc ← Py.lift (load_structure E task_desc_file);
  '(config, tasks) ← Py.lift (load_tasks E task_desc);
  if dry_run then
    call CheckExistingFiles (check_existing_files E tasks);;
    mret (Some 0)
  else
    Py.try_finally
      (call RunnerCall (runner E task_desc tasks config);;
       emit (LogInfo "Runner finished normally, triggering shutdown." []))
      (call RunnerStop (runner_stop E));;
    mret None.

(** The scheduler submissions in a log. *)
Definition is_submission (ev : event) : bool :=
  match ev with
  | SubmitSubjob _ _ _ => true
  | _ => false
  end.

End Stages.

Arguments env : clear implicits.

End Stacker.

(* ===================================================================== *)
(** * digitalearthau/stacker.py: the [submit] stage                       *)
(* ===================================================================== *)

Module StackerSubmit.

(** The keyword arguments of [qsub_params=dict(...)] in [submit]. *)
Record qsub_params : Type := {
  qp_mem : Py.str;
  qp_wd : bool;
  qp_ncpus : Z;
  qp_walltime : Py.str;
  qp_name : Py.str
}.

(** What [submit] does to the outside, in order: its log lines, the call of
    [init_task_app] (which creates the job directory and the task
    description file) and the call of [submit_subjob]. *)
Inductive event : Type :=
| LogInfo (fmt : string) (args : list Stacker.pyval)
| InitTaskApp (job_type : Py.str) (source_products : list Py.str)
              (app_config_path pbs_project pbs_queue : Py.str)
| SubmitSubjob (name : Py.str) (command : list Py.str) (params : qsub_params).

Section Submit.

(** The application configuration, the time range of [--year], the search
    terms of the query and the task description are opaque values;
    [path] is the type of [pathlib.Path] values. *)
Context {Config TimeRange Terms TaskDesc path : Type}.

(** The collaborators of [submit]: each field is the outcome of the call
    of that name ([source_product] is the lookup
    [app_config['source_product']], [search_terms] is
    [Query(index=index, time=time_range).search_terms]). *)
Record env : Type := {
  resolve : Py.str -> result path;
  path_str : path -> Py.str;
  read_document : path -> result Config;
  source_product : Config -> result Py.str;
  search_terms : TimeRange -> result Terms;
  init_task_app : Py.str -> list Py.str -> Terms -> path -> Py.str -> Py.str
                  -> result (TaskDesc * path);
  submit_subjob : Py.str -> TaskDesc -> list Py.str -> qsub_params -> result unit
}.

Variable E : env.

Definition stage (A : Type) : Type := Py.prog (list event) A.

Definition emit (ev : event) : stage unit := fun tr => (tr ++ [ev], Ok tt).

(** An external call: it is logged, then its outcome is delivered. *)
Definition call {A : Type} (ev : event) (r : result A) : stage A :=
  emit ev;; Py.lift r.

(** Lines 72-114.  The result is the value returned: [Some 0] for
    [return 0], [None] when the body runs to its end. *)
Definition submit (app_config project queue : Py.str) (no_qsub : bool)
    (time_range : TimeRange) (tag : Py.str) : stage (option Z) :=
  emit (LogInfo "Tag: %s" [Stacker.VStr tag]);;
  app_config_path ← Py.lift (resolve E app_config);
  app_config ← Py.lift (read_document E app_config_path);
  product ← Py.lift (source_product E app_config);
  terms ← Py.lift (search_terms E time_range);
  '(task_desc, task_path) ←
    call (InitTaskApp (Py.lit "stacking") [product] (path_str E app_config_path)
                      project queue)
         (init_task_app E (Py.lit "stacking") [product] terms app_config_path
                        project queue);
  emit (LogInfo "Created task description: %s" [Stacker.VStr (path_str E task_path)]);;
  if no_qsub then
    emit (LogInfo "Skipping submission due to --no-qsub" []);;
    mret (Some 0)
  else
    let command :=
      [ Py.lit "generate"; Py.lit "-v"; Py.lit "-v";
        Py.lit "--task-desc"; path_str E task_path;
        Py.lit "--tag"; tag ] in
    let params :=
      {| qp_mem := Py.lit "20G";
         qp_wd := true;
         qp_ncpus := 1;
         qp_walltime := Py.lit "1h";
         qp_name := Py.lit "stack-generate-" ++ tag |} in
    call (SubmitSubjob (Py.lit "generate") command params)
         (submit_subjob E (Py.lit "generate") task_desc command params);;
    mret None.

(** The scheduler submissions in a log. *)
Definition is_submission (ev : event) : bool :=
  match ev with
  | SubmitSubjob _ _ _ => true
  | _ => false
  end.

(** The local work: the calls of [init_task_app]. *)
Definition is_init (ev : event) : bool :=
  match ev with
  | InitTaskApp _ _ _ _ _ => true
  | _ => false
  end.

End Submit.

Arguments env : clear implicits.

End StackerSubmit.

(* ===================================================================== *)
(** * scripts/submit-tile-sync.py                                         *)
(* ===================================================================== *)

Module TileSync.

Definition SUBMIT_THROTTLE_SECS : Z := 1.

(** What the script does to the outside, in order: the lines it prints
    (lines 25, 35, 44 and 52), its calls of [submit_job] (line 51: the loop
    index, the command handed to [check_output], and what [submit_job]
    returned or raised) and its pauses (line 55). *)
Inductive event : Type :=
| Found (total : Z)
| LimitReached (submit_limit : Z)
| Skipped (i : Z) (subjob_name : Py.str)
| Submit (i : Z) (argv : list Py.str) (outcome : result Py.str)
| Submitted (i : Z) (subjob_name job_id : Py.str)
| Sleep (secs : Z).

(** The text of the printed lines. *)
Definition printed (ev : event) : option Py.str :=
  match ev with
  | Found total =>
      Some (Py.lit "Found " ++ Py.str_of_int total ++ Py.lit " total jobs")
  | LimitReached submit_limit =>
      Some (Py.lit "Submit limit (" ++ Py.str_of_int submit_limit
            ++ Py.lit ") reached, done.")
  | Skipped i subjob_name =>
      Some (Py.lit "[" ++ Py.str_of_int i ++ Py.lit "] " ++ subjob_name
            ++ Py.lit ": output exists, skipping")
  | Submitted i subjob_name job_id =>
      Some (Py.lit "[" ++ Py.str_of_int i ++ Py.lit "] " ++ subjob_name
            ++ Py.lit ": submitted " ++ job_id)
  | Submit _ _ _ | Sleep _ => None
  end.

(** [a % b] on two [int]s; the sign follows the divisor, as [Z.modulo]. *)
Definition py_mod (a b : Z) : result Z :=
  if b =? 0 then Raise ZeroDivisionError else Ok (a `mod` b).

(** Lines 59-61: the dependency arguments of the [qsub] command. *)
Definition requirements_for (require_job_id : option Py.str) : list Py.str :=
  match require_job_id with
  | Some job_id =>
      if Py.truthy job_id
      then [Py.lit "-W"; Py.lit "depend=afterok:" ++ Py.strip job_id]
      else []
  | None => []
  end.

(** Lines 63-82: the command line given to [check_output]. *)
Definition qsub_argv (error_path output_path : Py.str) (input_folders : list Py.str)
    (subjob_name : Py.str) (requirements : list Py.str) : list Py.str :=
  let sync_command :=
    [ Py.lit "python"; Py.lit "-m"; Py.lit "datacubenci.sync";
      Py.lit "-j"; Py.lit "4" ] ++ input_folders in
  [ Py.lit "qsub"; Py.lit "-V";
    Py.lit "-P"; Py.lit "v10";
    Py.lit "-q"; Py.lit "express";
    Py.lit "-l"; Py.lit "walltime=20:00:00,mem=4GB,ncpus=2,jobfs=1GB,other=gdata";
    Py.lit "-l"; Py.lit "wd";
    Py.lit "-N"; Py.lit "sync-" ++ subjob_name;
    Py.lit "-m"; Py.lit "e";
    Py.lit "-M"; Py.lit "jeremy.hooke@ga.gov.au";
    Py.lit "-e"; error_path;
    Py.lit "-o"; output_path ]
  ++ requirements ++ [Py.lit "--"] ++ sync_command.

(** Line 83: the job id read from the output of [qsub]. *)
Definition parse_job_id (output : Py.bytes) : result Py.str :=
  text ← Py.decode_utf8 output;
  Ok (Py.strip_chars (Py.lit " \n") text).

(** Line 38. *)
Definition subjob_name (name : Py.str) (tile_x : Z) : Py.str :=
  name ++ Py.lit "_" ++ Py.str_of_int tile_x.

Section Script.

(** [W] is the state of the outside world (file system, scheduler, clock),
    [path] the type of [pathlib.Path] values. *)
Context {W path : Type}.

(** The collaborators of the script.  [int] accepts the decimal digits of
    every Unicode script, a table that is not reproduced here: the builtin
    is a field as well. *)
Record env : Type := {
  Path : Py.str -> path;
  absolute : W -> path -> path;
  joinpath : path -> Py.str -> path;
  path_name : path -> Py.str;
  path_str : path -> Py.str;
  path_exists : W -> path -> bool;
  iterdir : W -> path -> result (list path);
  glob : W -> path -> Py.str -> result (list path);
  check_output : W -> list Py.str -> W * result Py.bytes;
  sleep : W -> Z -> W;
  int : Py.str -> result Z
}.

Variable E : env.

Record state : Type := {
  world : W;
  trace : list event
}.

Definition script (A : Type) : Type := Py.prog state A.

Definition emit (ev : event) : script unit :=
  fun st => ({| world := world st; trace := trace st ++ [ev] |}, Ok tt).

(** A query that leaves the world as it is. *)
Definition ask {A : Type} (q : W -> result A) : script A :=
  fun st => (st, q (world st)).

(** Lines 40 and 41. *)
Definition output_path (run_directory : path) (name : Py.str) (tile_x : Z) : path :=
  joinpath E run_directory (subjob_name name tile_x ++ Py.lit ".tsv").

Definition error_path (run_directory : path) (name : Py.str) (tile_x : Z) : path :=
  joinpath E run_directory (subjob_name name tile_x ++ Py.lit ".log").

(** Lines 59-82: the command [submit_job] runs. *)
Definition submit_argv (error_path : path) (input_folders : list path)
    (output_path : path) (subjob_name : Py.str) (require_job_id : option Py.str)
  : list Py.str :=
  qsub_argv (path_str E error_path) (path_str E output_path)
            (path_str E <$> input_folders) subjob_name
            (requirements_for require_job_id).

(** Lines 58-84.  [i] is the loop index of the caller, kept for the log. *)
Definition submit_job (i : Z) (error_path : path) (input_folders : list path)
    (output_path : path) (subjob_name : Py.str) (require_job_id : option Py.str)
  : script Py.str :=
  fun st =>
    let argv := submit_argv error_path input_folders output_path subjob_name
                            require_job_id in
    let '(w, output) := check_output E (world st) argv in
    let job_id := output ≫= parse_job_id in
    ({| world := w; trace := trace st ++ [Submit i argv job_id] |}, job_id).

(** Line 55. *)
Definition pause (secs : Z) : script unit :=
  fun st => ({| world := sleep E (world st) secs; trace := trace st ++ [Sleep secs] |},
             Ok tt).

(** Lines 33-55: the loop, from index [i] on, over the tiles still to be
    considered; it returns the slot map it ends with. *)
Fixpoint submit_loop (name : Py.str) (folder run_directory : path)
    (submit_limit concurrent_jobs : Z)
    (i : Z) (tile_xs : list Z) (last_job_slots : gmap Z Py.str)
  : script (gmap Z Py.str) :=
  match tile_xs with
  | [] => mret last_job_slots
  | tile_x :: rest =>
      if i =? submit_limit then
        emit (LimitReached submit_limit);;
        mret last_job_slots
      else
        let subjob_name := subjob_name name tile_x in
        let output_path := output_path run_directory name tile_x in
        let error_path := error_path run_directory name tile_x in
        output_exists ← ask (fun w => Ok (path_exists E w output_path));
        if output_exists : bool then
          emit (Skipped i subjob_name);;
          submit_loop name folder run_directory submit_limit concurrent_jobs
                      (i + 1) rest last_job_slots
        else
          slot ← Py.lift (py_mod i concurrent_jobs);
          let last_job_id := last_job_slots !! slot in
          input_folders ←
            ask (fun w => glob E w folder (Py.str_of_int tile_x ++ Py.lit "_*"));
          job_id ← submit_job i error_path input_folders output_path subjob_name
                              last_job_id;
          emit (Submitted i subjob_name job_id);;
          let last_job_slots := <[slot := job_id]> last_job_slots in
          pause SUBMIT_THROTTLE_SECS;;
          submit_loop name folder run_directory submit_limit concurrent_jobs
                      (i + 1) rest last_job_slots
  end.

(** Lines 20-23: the sorted distinct tile X values of the input folder. *)
Definition find_tile_xs (folder : path) : script (list Z) :=
  entries ← ask (fun w => iterdir E w folder);
  xs ← Py.lift (mapM (fun p => int E (Py.split_head 95 (path_name E p)))
                     (filter (fun p => path_name E p ≠ Py.lit "ncml") entries));
  mret (merge_sort Z.le (elements (list_to_set xs : gset Z))).

(** Lines 12-55. *)
Definition main (name : Py.str) (folder : path) (submit_limit concurrent_jobs : Z)
  : script unit :=
  folder ← ask (fun w => Ok (absolute E w folder));
  run_directory ← ask (fun w => Ok (absolute E w (Path E (Py.lit "runs"))));
  folder_exists ← ask (fun w => Ok (path_exists E w folder));
  if negb folder_exists then
    Py.raise (ValueError (Py.lit "Folder doesn't exist: " ++ path_str E folder))
  else
    tile_xs ← find_tile_xs folder;
    emit (Found (Z.of_nat (length tile_xs)));;
    submit_loop name folder run_directory submit_limit concurrent_jobs 0 tile_xs ∅;;
    mret tt.

(** ** The loop as a relation

    [loop_run name run_directory submit_limit c i tile_xs slots evs r]: from
    index [i] and slot map [slots], the loop over [tile_xs] can log [evs]
    and end with [r].  The answers of the outside world are left open. *)
Inductive loop_run (name : Py.str) (run_directory : path) (submit_limit c : Z)
  : Z -> list Z -> gmap Z Py.str -> list event -> result (gmap Z Py.str) -> Prop :=
| run_done i slots :
    loop_run name run_directory submit_limit c i [] slots [] (Ok slots)
| run_limit i tile_x rest slots :
    i = submit_limit ->
    loop_run name run_directory submit_limit c i (tile_x :: rest) slots
             [LimitReached submit_limit] (Ok slots)
| run_skip i tile_x rest slots evs r :
    i <> submit_limit ->
    loop_run name run_directory submit_limit c (i + 1) rest slots evs r ->
    loop_run name run_directory submit_limit c i (tile_x :: rest) slots
             (Skipped i (subjob_name name tile_x) :: evs) r
| run_raise i tile_x rest slots e :
    i <> submit_limit ->
    loop_run name run_directory submit_limit c i (tile_x :: rest) slots [] (Raise e)
| run_submit_raise i tile_x rest slots input_folders e :
    i <> submit_limit -> c <> 0 ->
    loop_run name run_directory submit_limit c i (tile_x :: rest) slots
             [Submit i (submit_argv (error_path run_directory name tile_x) input_folders
                                    (output_path run_directory name tile_x)
                                    (subjob_name name tile_x) (slots !! (i `mod` c)))
                     (Raise e)]
             (Raise e)
| run_submit i tile_x rest slots input_folders job_id evs r :
    i <> submit_limit -> c <> 0 ->
    loop_run name run_directory submit_limit c (i + 1) rest
             (<[i `mod` c := job_id]> slots) evs r ->
    loop_run name run_directory submit_limit c i (tile_x :: rest) slots
             (Submit i (submit_argv (error_path run_directory name tile_x) input_folders
                                    (output_path run_directory name tile_x)
                                    (subjob_name name tile_x) (slots !! (i `mod` c)))
                     (Ok job_id)
              :: Submitted i (subjob_name name tile_x) job_id
              :: Sleep SUBMIT_THROTTLE_SECS :: evs)
             r.

End Script.

Arguments env : clear implicits.
Arguments state : clear implicits.

(** ** Reading a log *)

(** The command [argv] is the [qsub] command of [submit_job] with the
    dependency arguments [requirements]. *)
Definition declares (argv requirements : list Py.str) : Prop :=
  exists error_path output_path input_folders subjob_name,
    argv = qsub_argv error_path output_path input_folders subjob_name requirements.

(** Dependency chaining at distance [c]: a submission at an index below [c]
    declares no dependency, and one at an index [i >= c] declares the
    dependency [dep job_id] on the job id returned by the submission at
    index [i - c]. *)
Definition chained (dep : Py.str -> list Py.str) (c : Z) (evs : list event) : Prop :=
  forall i argv outcome,
    Submit i argv outcome ∈ evs ->
    (i < c -> declares argv [])
    /\ (c <= i ->
        exists argv' job_id,
          Submit (i - c) argv' (Ok job_id) ∈ evs /\ declares argv (dep job_id)).

(** The dependency on exactly the job id as returned. *)
Definition depend_afterok (job_id : Py.str) : list Py.str :=
  [Py.lit "-W"; Py.lit "depend=afterok:" ++ job_id].

(** No tile was skipped. *)
Definition no_skip (evs : list event) : Prop :=
  forall i subjob_name, Skipped i subjob_name ∉ evs.

(** The slot map a log accounts for: every successful submission records
    its job id in slot [i mod c]. *)
Definition record_submission (c : Z) (slots : gmap Z Py.str) (ev : event)
  : gmap Z Py.str :=
  match ev with
  | Submit i _ (Ok job_id) => <[i `mod` c := job_id]> slots
  | _ => slots
  end.

Definition slots_after (c : Z) (evs : list event) : gmap Z Py.str :=
  foldl (record_submission c) ∅ evs.

(** The successful submissions of a log. *)
Definition is_submitted (ev : event) : bool :=
  match ev with
  | Submit _ _ (Ok _) => true
  | _ => false
  end.

End TileSync.

(* ===================================================================== *)
(** * Reading the log of the tile-sync submitter                          *)
(* ===================================================================== *)

Module TileSyncLog.

(** The calls of [submit_job] in a log, whatever their outcome. *)
Definition is_submit (ev : TileSync.event) : bool :=
  match ev with
  | TileSync.Submit _ _ _ => true
  | _ => false
  end.

(** The tiles skipped in a log. *)
Definition is_skip (ev : TileSync.event) : bool :=
  match ev with
  | TileSync.Skipped _ _ => true
  | _ => false
  end.

End TileSyncLog.

(* ===================================================================== *)
(** * Concrete environments                                               *)
(* ===================================================================== *)

Module Examples.

(** Collaborators of the stacker stages with opaque values reduced to
    [unit]: [save_tasks] reports [num_tasks] tasks, the runner and its
    [stop] end as given. *)
Definition stacker_env (num_tasks : Z) (runner_outcome stop_outcome : result unit)
  : Stacker.env unit unit unit :=
  {| Stacker.load_structure := fun _ => Ok tt;
     Stacker.read_document := fun _ => Ok tt;
     Stacker.with_task_fields := fun config _ => config;
     Stacker.make_stacker_config := fun config => Ok config;
     Stacker.save_tasks := fun _ _ => Ok num_tasks;
     Stacker.submit_subjob := fun _ _ _ => Ok tt;
     Stacker.load_tasks := fun _ => Ok (tt, tt);
     Stacker.check_existing_files := fun _ => Ok tt;
     Stacker.runner := fun _ _ _ => runner_outcome;
     Stacker.runner_stop := stop_outcome |}.

(** A file system and scheduler for the tile-sync script.  Paths are
    their own text; the world is the number of [qsub] calls made so far;
    [existing] lists the paths that exist, [entries] the names in the input
    folder, and the [k]-th call of [qsub] prints [outputs k]. *)
Fixpoint basename_from (acc p : Py.str) : Py.str :=
  match p with
  | [] => acc
  | c :: p' => if (c =? 47)%N then basename_from [] p' else basename_from (acc ++ [c]) p'
  end.

Fixpoint digits_value (acc : Z) (s : Py.str) : option Z :=
  match s with
  | [] => Some acc
  | c :: s' =>
      if ((48 <=? c) && (c <=? 57))%N
      then digits_value (acc * 10 + Z.of_N (c - 48)) s'
      else None
  end.

(** [int] on ASCII decimal literals. *)
Definition ascii_int (s : Py.str) : result Z :=
  let invalid := Raise (ValueError (Py.lit "invalid literal for int() with base 10")) in
  let '(negative, digits) :=
    match Py.strip s with
    | 45%N :: d => (true, d)
    | 43%N :: d => (false, d)
    | d => (false, d)
    end in
  match digits with
  | [] => invalid
  | _ =>
      match digits_value 0 digits with
      | Some v => Ok (if negative : bool then - v else v)
      | None => invalid
      end
  end.

Definition tile_env (existing entries : list Py.str) (outputs : nat -> result Py.bytes)
  : TileSync.env nat Py.str :=
  {| TileSync.Path := fun s => s;
     TileSync.absolute := fun _ p =>
       match p with
       | 47%N :: _ => p
       | _ => Py.lit "/home/sync/" ++ p
       end;
     TileSync.joinpath := fun p s => p ++ Py.lit "/" ++ s;
     TileSync.path_name := basename_from [];
     TileSync.path_str := fun p => p;
     TileSync.path_exists := fun _ p => bool_decide (p ∈ existing);
     TileSync.iterdir := fun _ folder =>
       Ok ((fun name => folder ++ Py.lit "/" ++ name) <$> entries);
     TileSync.glob := fun _ folder pattern =>
       Ok ((fun name => folder ++ Py.lit "/" ++ name)
             <$> filter (fun name => removelast pattern `prefix_of` name) entries);
     TileSync.check_output := fun calls _ => (S calls, outputs calls);
     TileSync.sleep := fun calls _ => calls;
     TileSync.int := ascii_int |}.

(** A new line. *)
Definition nl : string := String "010" EmptyString.

(** [qsub] prints the id of the new job and a new line. *)
Definition pbs_output (calls : nat) : result Py.bytes :=
  Ok ("7" +:+ NilZero.string_of_uint (Nat.to_uint calls) +:+ ".r-man2" +:+ nl).

Definition fresh : TileSync.state nat :=
  {| TileSync.world := 0%nat; TileSync.trace := [] |}.

Definition data_folder : Py.str := Py.lit "/g/data/fc".

(** Five tiles, none processed yet. *)
Definition five_tiles_env : TileSync.env nat Py.str :=
  tile_env [data_folder]
    [Py.lit "1_1"; Py.lit "2_1"; Py.lit "3_1"; Py.lit "4_1"; Py.lit "5_1"]
    pbs_output.

(** Five tiles, none processed yet, and a [qsub] whose first call prints
    nothing. *)
Definition quiet_first_env : TileSync.env nat Py.str :=
  tile_env [data_folder]
    [Py.lit "1_1"; Py.lit "2_1"; Py.lit "3_1"; Py.lit "4_1"; Py.lit "5_1"]
    (fun calls => match calls with
                  | O => Ok EmptyString
                  | _ => pbs_output calls
                  end).

(** Three tiles, the output of the first one is there already. *)
Definition rerun_env : TileSync.env nat Py.str :=
  tile_env [data_folder; Py.lit "/home/sync/runs/5fc_1.tsv"]
    [Py.lit "1_1"; Py.lit "2_1"; Py.lit "3_1"]
    pbs_output.

(** No input folder. *)
Definition empty_env : TileSync.env nat Py.str := tile_env [] [] pbs_output.

(** Five tiles, none processed yet, and a [qsub] that fails at its third
    call. *)
Definition failing_env : TileSync.env nat Py.str :=
  tile_env [data_folder]
    [Py.lit "1_1"; Py.lit "2_1"; Py.lit "3_1"; Py.lit "4_1"; Py.lit "5_1"]
    (fun calls => match calls with
                  | 2%nat => Raise (External "qsub: non-zero exit status")
                  | _ => pbs_output calls
                  end).

(** Three tiles whose outputs are all there. *)
Definition finished_env : TileSync.env nat Py.str :=
  tile_env [ data_folder; Py.lit "/home/sync/runs/5fc_1.tsv";
             Py.lit "/home/sync/runs/5fc_2.tsv"; Py.lit "/home/sync/runs/5fc_3.tsv" ]
    [Py.lit "1_1"; Py.lit "2_1"; Py.lit "3_1"]
    pbs_output.

(** Collaborators of [submit] with opaque values reduced to [unit] and
    paths to their text: the task description is written to
    [jobs/stacking/task-desc.yaml], and [submit_subjob] ends as given. *)
Definition submit_env (submit_outcome : result unit)
  : StackerSubmit.env unit unit unit unit Py.str :=
  {| StackerSubmit.resolve := fun app_config => Ok (Py.lit "/g/data/" ++ app_config);
     StackerSubmit.path_str := fun p => p;
     StackerSubmit.read_document := fun _ => Ok tt;
     StackerSubmit.source_product := fun _ => Ok (Py.lit "ls8_nbar_albers");
     StackerSubmit.search_terms := fun _ => Ok tt;
     StackerSubmit.init_task_app := fun _ _ _ _ _ _ =>
       Ok (tt, Py.lit "jobs/stacking/task-desc.yaml");
     StackerSubmit.submit_subjob := fun _ _ _ _ => submit_outcome |}.

End Examples.

(* ===================================================================== *)
(** * Properties                                                          *)
(* ===================================================================== *)

(** ** Tactics for finite logs *)

Ltac list_member :=
  repeat first [apply list_elem_of_here | apply list_elem_of_further].

Ltac not_in_log H :=
  repeat (apply elem_of_cons in H as [H|H]; [discriminate H|]);
  by apply elem_of_nil in H.

(** ** The Python fragment on known values *)

(** [1 / 3] is [0x1.5555555555555p-2] and [1 / 10] is
    [0x1.999999999999ap-4]. *)
Example truediv_third_and_tenth :
  Py.int_truediv 1 3 = Ok (Py.Finite 6004799503160661 (-54))
  /\ Py.int_truediv 1 10 = Ok (Py.Finite 7205759403792794 (-56))
  /\ Py.int_truediv (-7) 2 = Ok (Py.Finite (-7881299347898368) (-51)).
Proof. repeat split; vm_compute; reflexivity. Qed.

(** Halves round to the even neighbour, down to the subnormals. *)
Example truediv_ties_to_even :
  Py.int_truediv (2 ^ 53 + 1) 1 = Ok (Py.Finite (2 ^ 52) 1)
  /\ Py.int_truediv (2 ^ 53 + 3) 1 = Ok (Py.Finite (2 ^ 52 + 2) 1)
  /\ Py.int_truediv 1 (2 ^ 1075) = Ok (Py.Finite 0 (-1074))
  /\ Py.int_truediv 3 (2 ^ 1075) = Ok (Py.Finite 2 (-1074)).
Proof. repeat split; vm_compute; reflexivity. Qed.

(** The largest float, and the first quotient that has none. *)
Example truediv_range :
  Py.int_truediv (Py.float_limit - 1) 1 = Ok (Py.Finite (2 ^ 53 - 1) 971)
  /\ Py.int_truediv Py.float_limit 1 = Raise OverflowError
  /\ Py.int_truediv 5 0 = Raise ZeroDivisionError.
Proof. repeat split; vm_compute; reflexivity. Qed.

(** [ceil(1.25) = 2], [ceil(-0.5) = 0], [ceil(3.0) = 3]. *)
Example ceil_values :
  Py.ceil (Py.Finite 5 (-2)) = Ok 2
  /\ Py.ceil (Py.Finite (-1) (-1)) = Ok 0
  /\ Py.ceil (Py.Finite 3 0) = Ok 3.
Proof. repeat split; reflexivity. Qed.

(** [" 12\t".strip()], ["xaxbx".strip("x")] and ["-12_23".split("_")[0]]. *)
Example str_values :
  Py.strip (Py.lit " 12" ++ [9%N]) = Py.lit "12"
  /\ Py.strip_chars (Py.lit "x") (Py.lit "xaxbx") = Py.lit "axb"
  /\ Py.split_head 95 (Py.lit "-12_23") = Py.lit "-12"
  /\ Py.str_of_int (-12) = Py.lit "-12".
Proof. repeat split; vm_compute; reflexivity. Qed.

(** UTF-8: ASCII, a two-byte and a three-byte sequence; an overlong form
    and a lone continuation byte are refused. *)
Example decode_values :
  Py.decode_utf8 "7.r-man2" = Ok (Py.lit "7.r-man2")
  /\ Py.decode_utf8 (String "195" (String "169" EmptyString)) = Ok [233%N]
  /\ Py.decode_utf8 (String "226" (String "130" (String "172" EmptyString))) = Ok [8364%N]
  /\ Py.decode_utf8 (String "192" (String "128" EmptyString)) = Raise UnicodeDecodeError
  /\ Py.decode_utf8 (String "128" EmptyString) = Raise UnicodeDecodeError.
Proof. repeat split; vm_compute; reflexivity. Qed.

(** The lines of the tile-sync loop. *)
Example printed_lines :
  TileSync.printed (TileSync.Skipped 0 (TileSync.subjob_name (Py.lit "5fc") (-12)))
  = Some (Py.lit "[0] 5fc_-12: output exists, skipping")
  /\ TileSync.printed (TileSync.Submitted 3 (Py.lit "5fc_7") (Py.lit "70.r-man2"))
     = Some (Py.lit "[3] 5fc_7: submitted 70.r-man2")
  /\ TileSync.printed (TileSync.LimitReached 4)
     = Some (Py.lit "Submit limit (4) reached, done.")
  /\ TileSync.printed (TileSync.Found 12) = Some (Py.lit "Found 12 total jobs").
Proof. repeat split; vm_compute; reflexivity. Qed.

(** The sorted distinct tile X values of a folder listing. *)
Example tiles_found :
  (TileSync.find_tile_xs
     (Examples.tile_env []
        [Py.lit "3_1"; Py.lit "-12_23"; Py.lit "ncml"; Py.lit "3_2"; Py.lit "10_4"]
        Examples.pbs_output)
     Examples.data_folder Examples.fresh).2
  = Ok [-12; 3; 10].
Proof. vm_compute. reflexivity. Qed.

(** ** Rounded quotients *)

Lemma rne_bounds n d :
  0 <= n -> 0 < d ->
  2 * (Py.rne n d) * d - d <= 2 * n <= 2 * (Py.rne n d) * d + d.
Proof.
  intros Hn Hd. unfold Py.rne.
  pose proof (Z.div_mod n d ltac:(lia)) as Hdm.
  pose proof (Z.mod_pos_bound n d Hd) as Hr.
  destruct (Z.ltb_spec (2 * (n mod d)) d); [nia|].
  destruct (Z.ltb_spec d (2 * (n mod d))); [nia|].
  destruct (Z.even (n / d)); nia.
Qed.

Lemma ilog2_ratio_spec p d :
  0 < d -> d <= p ->
  let L := Py.ilog2_ratio p d in
  0 <= L /\ d * 2 ^ L <= p < d * 2 ^ (L + 1).
Proof.
  intros Hd Hp. unfold Py.ilog2_ratio.
  pose proof (Z.log2_spec p ltac:(lia)) as [Hp1 Hp2].
  pose proof (Z.log2_spec d Hd) as [Hd1 Hd2].
  pose proof (Z.log2_nonneg d) as Hld.
  pose proof (Z.log2_le_mono d p Hp) as Hmono.
  set (lp := Z.log2 p) in *. set (ld := Z.log2 d) in *.
  assert (Hl : 0 <= lp - ld) by lia.
  destruct (Z.leb_spec 0 (lp - ld)) as [_|]; [|lia].
  replace (Z.succ lp) with (ld + (lp - ld) + 1) in Hp2 by lia.
  replace (Z.succ ld) with (ld + 1) in Hd2 by lia.
  replace lp with (ld + (lp - ld)) in Hp1 by lia.
  set (l := lp - ld) in *.
  rewrite Z.pow_add_r in Hp1 by lia.
  rewrite !Z.pow_add_r in Hp2 by lia.
  rewrite Z.pow_add_r in Hd2 by lia.
  change (2 ^ 1) with 2 in *.
  assert (H2l : 0 < 2 ^ l) by (apply Z.pow_pos_nonneg; lia).
  assert (H2d : 0 < 2 ^ ld) by (apply Z.pow_pos_nonneg; lia).
  destruct (Z.ltb_spec p (d * 2 ^ l)) as [Hlt|Hge]; cbv zeta.
  - assert (l <> 0) by (intros ->; change (2 ^ 0) with 1 in Hlt; lia).
    replace (l - 1 + 1) with l by lia.
    split; [lia|]. split; [|lia].
    replace l with (l - 1 + 1) in Hp1 by lia.
    rewrite Z.pow_add_r in Hp1 by lia. change (2 ^ 1) with 2 in Hp1.
    assert (0 < 2 ^ (l - 1)) by (apply Z.pow_pos_nonneg; lia).
    nia.
  - split; [lia|]. split; [lia|].
    rewrite Z.pow_add_r by lia. change (2 ^ 1) with 2. nia.
Qed.


Lemma round64_pos n d :
  0 < d -> d <= n ->
  exists L,
    0 <= L /\ d * 2 ^ L <= n < d * 2 ^ (L + 1) /\
    Py.round64 n d =
      let e := L - 52 in
      let m := if 0 <=? e then Py.rne n (d * 2 ^ e) else Py.rne (n * 2 ^ (- e)) d in
      if (971 <? e) || ((e =? 971) && (m =? 2 ^ 53)) then Py.Infinity false
      else Py.Finite m e.
Proof.
  intros Hd Hn.
  destruct (ilog2_ratio_spec n d Hd Hn) as (HL & Hlo & Hhi).
  exists (Py.ilog2_ratio n d). split; [exact HL|]. split; [lia|].
  unfold Py.round64.
  destruct (Z.eqb_spec n 0); [lia|].
  rewrite (Z.abs_eq n) by lia.
  rewrite (Z.max_l (Py.ilog2_ratio n d - 52) (-1074)) by lia.
  replace (n <? 0) with false by (symmetry; apply Z.ltb_ge; lia).
  rewrite (Z.sgn_pos n) by lia.
  cbv zeta. 
  destruct (_ || _); [reflexivity|].
  f_equal. lia.
Qed.


Lemma pow_lt_inv a b : 0 <= b -> 2 ^ a < 2 ^ b -> a < b.
Proof. intros Hb H. apply (Z.pow_lt_mono_r_iff 2); lia. Qed.

Lemma round64_finite n d :
  0 < d -> d <= n -> n < d * Py.float_limit ->
  exists m e, Py.round64 n d = Py.Finite m e.
Proof.
  intros Hd Hn Hlim.
  destruct (round64_pos n d Hd Hn) as (L & HL & [Hlo Hhi] & ->).
  cbv zeta.
  assert (HL' : L < 1024).
  { apply pow_lt_inv; [lia|].
    assert (0 < 2 ^ 970) by (apply Z.pow_pos_nonneg; lia).
    unfold Py.float_limit in Hlim. nia. }
  destruct (Z.ltb_spec 971 (L - 52)); [lia|].
  destruct (Z.eqb_spec (L - 52) 971) as [He|]; [|eauto].
  rewrite He. change (0 <=? 971) with true. cbv iota.
  cbn [orb andb].
  destruct (Z.eqb_spec (Py.rne n (d * 2 ^ 971)) (2 ^ 53)) as [Hm|]; [|eauto].
  exfalso.
  assert (HD : 0 < 2 ^ 971) by (apply Z.pow_pos_nonneg; lia).
  pose proof (rne_bounds n (d * 2 ^ 971) ltac:(lia) ltac:(nia)) as [Hb _].
  rewrite Hm in Hb.
  unfold Py.float_limit in Hlim.
  replace (2 ^ 1024) with (2 ^ 53 * 2 ^ 971) in Hlim by (rewrite <- Z.pow_add_r by lia; reflexivity).
  replace (2 ^ 971) with (2 * 2 ^ 970) in * by (change 971 with (1 + 970); rewrite Z.pow_add_r by lia; reflexivity).
  set (P := 2 ^ 970) in *. set (Q := 2 ^ 53) in *.
  nia.
Qed.

Lemma round64_overflow n d :
  0 < d -> d * Py.float_limit <= n ->
  Py.round64 n d = Py.Infinity false.
Proof.
  intros Hd Hlim.
  assert (H970 : 0 < 2 ^ 970) by (apply Z.pow_pos_nonneg; lia).
  assert (E1024 : 2 ^ 1024 = 2 ^ 53 * (2 * 2 ^ 970)).
  { change 1024 with (53 + (1 + 970)). rewrite !Z.pow_add_r by lia. reflexivity. }
  assert (E1023 : 2 ^ 1023 = 2 ^ 52 * (2 * 2 ^ 970)).
  { change 1023 with (52 + (1 + 970)). rewrite !Z.pow_add_r by lia. reflexivity. }
  assert (E971 : 2 ^ 971 = 2 * 2 ^ 970).
  { change 971 with (1 + 970). rewrite Z.pow_add_r by lia. reflexivity. }
  assert (Hn : d <= n).
  { unfold Py.float_limit in Hlim. rewrite E1024 in Hlim.
    assert (1 <= 2 ^ 53) by (vm_compute; discriminate). nia. }
  destruct (round64_pos n d Hd Hn) as (L & HL & [Hlo Hhi] & ->).
  cbv zeta.
  assert (HL' : 1023 <= L).
  { assert (1023 < L + 1); [|lia].
    apply pow_lt_inv; [lia|].
    unfold Py.float_limit in Hlim. rewrite E1024 in Hlim. rewrite E1023.
    assert (E53 : 2 ^ 53 = 2 * 2 ^ 52) by reflexivity.
    rewrite E53 in Hlim.
    assert (1 <= 2 ^ 52) by (vm_compute; discriminate).
    set (P := 2 ^ 970) in *. set (Q := 2 ^ 52) in *. set (R := 2 ^ (L + 1)) in *.
    nia. }
  destruct (Z.ltb_spec 971 (L - 52)); [reflexivity|].
  assert (L = 1023) by lia. subst L.
  change (1023 - 52) with 971. change (0 <=? 971) with true. cbv iota.
  change (971 =? 971) with true. cbn [orb andb].
  destruct (Z.eqb_spec (Py.rne n (d * 2 ^ 971)) (2 ^ 53)) as [|Hne]; [reflexivity|].
  exfalso. apply Hne. clear Hne.
  change (1023 + 1) with 1024 in Hhi.
  unfold Py.float_limit in Hlim. rewrite E1024 in Hlim, Hhi. rewrite E971.
  set (D := d * (2 * 2 ^ 970)).
  assert (HD : 0 < D) by (unfold D; nia).
  assert (HDeven : D = 2 * (d * 2 ^ 970)) by (unfold D; lia).
  set (Hf := d * 2 ^ 970) in *.
  assert (Hlim' : 2 ^ 53 * D - Hf <= n) by (unfold D, Hf in *; nia).
  assert (Hhi' : n < 2 ^ 53 * D) by (unfold D; nia).
  unfold Py.rne.
  pose proof (Z.div_mod n D ltac:(lia)) as Hdm.
  pose proof (Z.mod_pos_bound n D HD) as Hr.
  assert (Hq : n / D = 2 ^ 53 - 1).
  { assert (n / D < 2 ^ 53) by (apply Z.div_lt_upper_bound; lia).
    assert (2 ^ 53 - 1 <= n / D); [|lia].
    apply Z.div_le_lower_bound; [lia|].
    assert (0 < Hf) by (unfold Hf; nia). nia. }
  rewrite Hq in *.
  destruct (Z.ltb_spec (2 * (n mod D)) D); [nia|].
  destruct (Z.ltb_spec D (2 * (n mod D))); [lia|].
  change (Z.even (2 ^ 53 - 1)) with false. cbv iota. lia.
Qed.

Lemma ceil_finite_neg m k c :
  0 < k ->
  (c - 1) * 2 ^ k < m <= c * 2 ^ k ->
  Py.ceil (Py.Finite m (- k)) = Ok c.
Proof.
  intros Hk [Hlo Hhi]. unfold Py.ceil.
  destruct (Z.leb_spec 0 (- k)); [lia|].
  rewrite Z.opp_involutive.
  assert (HP : 0 < 2 ^ k) by (apply Z.pow_pos_nonneg; lia).
  f_equal.
  assert (- m / 2 ^ k = - c); [|lia].
  symmetry. apply (Z.div_unique_pos (- m) (2 ^ k) (- c) (c * 2 ^ k - m)); lia.
Qed.

Lemma int_truediv_pos n d :
  0 < d -> Py.int_truediv n d =
    match Py.round64 n d with
    | Py.Infinity _ => Raise OverflowError
    | x => Ok x
    end.
Proof.
  intros Hd. unfold Py.int_truediv.
  destruct (Z.eqb_spec d 0); [lia|].
  rewrite Z.sgn_pos, Z.abs_eq, Z.mul_1_l by lia. reflexivity.
Qed.

Lemma ceil_div_exact n :
  320 <= n <= 320 * 2 ^ 45 ->
  Py.int_truediv n 320 ≫= Py.ceil = Ok ((n + 319) / 320).
Proof.
  intros [Hlo Hhi].
  rewrite int_truediv_pos by lia.
  destruct (Z.eq_dec n (320 * 2 ^ 45)) as [->|Hne]; [vm_compute; reflexivity|].
  destruct (round64_pos n 320 ltac:(lia) Hlo) as (L & HL & [HLlo HLhi] & ->).
  cbv zeta.
  assert (HL' : L < 45).
  { apply pow_lt_inv; [lia|]. lia. }
  destruct (Z.ltb_spec 971 (L - 52)); [lia|].
  destruct (Z.eqb_spec (L - 52) 971); [lia|].
  destruct (Z.leb_spec 0 (L - 52)); [lia|].
  cbn [orb andb].
  replace (L - 52) with (- (52 - L)) by lia.
  rewrite Z.opp_involutive.
  set (k := 52 - L).
  assert (Hk : 8 <= k) by (unfold k; lia).
  assert (HP : 2 ^ 8 <= 2 ^ k) by (apply Z.pow_le_mono_r; lia).
  change (2 ^ 8) with 256 in HP.
  pose proof (rne_bounds (n * 2 ^ k) 320 ltac:(nia) ltac:(lia)) as [Hb1 Hb2].
  set (m := Py.rne (n * 2 ^ k) 320) in *.
  set (c := (n + 319) / 320).
  assert (Hc : 320 * (c - 1) < n <= 320 * c).
  { unfold c. pose proof (Z.div_mod (n + 319) 320 ltac:(lia)).
    pose proof (Z.mod_pos_bound (n + 319) 320 ltac:(lia)). lia. }
  change (Ok (Py.Finite m (- k)) ≫= Py.ceil) with (Py.ceil (Py.Finite m (- k))).
  apply ceil_finite_neg; [lia|].
  set (P := 2 ^ k) in *. nia.
Qed.

Lemma range_check (P : Z -> bool) (k : nat) :
  forallb P (Z.of_nat <$> seq 0 k) = true ->
  forall n, 0 <= n < Z.of_nat k -> P n = true.
Proof.
  intros H n Hn. rewrite forallb_forall in H. apply H.
  apply in_map_iff. exists (Z.to_nat n). split; [lia|].
  apply in_seq. lia.
Qed.

Lemma ceil_div_320 n : Stacker.ceil_div n 320 = (n + 319) / 320.
Proof.
  unfold Stacker.ceil_div.
  pose proof (Z.div_mod (n + 319) 320 ltac:(lia)).
  pose proof (Z.mod_pos_bound (n + 319) 320 ltac:(lia)).
  assert (- n / 320 = - ((n + 319) / 320)); [|lia].
  symmetry.
  apply (Z.div_unique_pos (- n) 320 (- ((n + 319) / 320)) (319 - (n + 319) mod 320)); lia.
Qed.

Lemma small_counts_follow n :
  1 <= n < 320 -> Stacker.follows_documented_formula n.
Proof.
  intros Hn. unfold Stacker.follows_documented_formula.
  set (P := fun n : Z =>
    (n =? 0) || bool_decide (Stacker.estimate_job_size_locals n =
      Ok {| Stacker.nodes := Stacker.documented_nodes n;
            Stacker.tasks_per_cpu := Stacker.documented_tasks_per_core n;
            Stacker.wall_time_mins :=
              Py.str_of_int (Stacker.documented_wall_minutes n) ++ Py.lit "m" |})).
  assert (HP : P n = true).
  { apply (range_check P 320); [vm_compute; reflexivity | lia]. }
  unfold P in HP. destruct (Z.eqb_spec n 0); [lia|].
  cbn [orb] in HP. apply bool_decide_eq_true in HP. exact HP.
Qed.

Lemma small_counts_nodes n :
  0 <= n < 320 -> Stacker.estimate_nodes n = Ok (Stacker.documented_nodes n).
Proof.
  intros Hn.
  set (P := fun n : Z =>
    bool_decide (Stacker.estimate_nodes n = Ok (Stacker.documented_nodes n))).
  assert (HP : P n = true).
  { apply (range_check P 320); [vm_compute; reflexivity | lia]. }
  unfold P in HP. apply bool_decide_eq_true in HP. exact HP.
Qed.

Lemma large_counts_nodes n :
  320 <= n -> Stacker.estimate_nodes n = Ok 20 /\ Stacker.documented_nodes n = 20.
Proof.
  intros Hn. unfold Stacker.estimate_nodes, Stacker.documented_nodes.
  change (Stacker.max_nodes * Stacker.cores_per_node) with 320.
  change (20 * 16) with 320.
  destruct (Z.ltb_spec n 320); [lia|]. split; reflexivity.
Qed.

Lemma large_counts_follow n :
  320 <= n <= Stacker.exact_limit -> Stacker.follows_documented_formula n.
Proof.
  intros [Hlo Hhi]. unfold Stacker.follows_documented_formula.
  destruct (large_counts_nodes n Hlo) as [Hn Hd].
  unfold Stacker.estimate_job_size_locals, Stacker.documented_wall_minutes,
    Stacker.documented_tasks_per_core.
  rewrite Hn, Hd.
  change (20 * 16) with 320. rewrite ceil_div_320.
  pose proof (ceil_div_exact n ltac:(split; [exact Hlo | exact Hhi])) as Hc.
  change (Ok 20 ≫= ?k) with (k 20). cbv beta.
  change (20 * Stacker.cores_per_node) with 320.
  destruct (Py.int_truediv n 320) as [q|e]; [|discriminate Hc].
  change (Ok q ≫= ?k) with (k q). cbv beta.
  change (Ok q ≫= Py.ceil) with (Py.ceil q) in Hc.
  rewrite Hc.
  change (Ok ?a ≫= ?k) with (k a). cbv beta zeta.
  unfold Stacker.task_time_mins.
  rewrite (Z.mul_comm 5). reflexivity.
Qed.

Lemma estimate_job_size_of_locals n :
  Stacker.estimate_job_size n =
    match Stacker.estimate_job_size_locals n with
    | Ok _ => Ok (1, Py.lit "120m")
    | Raise e => Raise e
    end.
Proof.
  unfold Stacker.estimate_job_size.
  destruct (Stacker.estimate_job_size_locals n); reflexivity.
Qed.

Lemma float_limit_pos : 1 <= Py.float_limit.
Proof. vm_compute. discriminate. Qed.

Lemma locals_defined n :
  1 <= n < Stacker.overflow_threshold ->
  exists l, Stacker.estimate_job_size_locals n = Ok l.
Proof.
  intros [Hlo Hhi].
  destruct (Z.lt_ge_cases n 320) as [Hs|Hl].
  - eexists. apply small_counts_follow. lia.
  - destruct (large_counts_nodes n Hl) as [Hn _].
    unfold Stacker.estimate_job_size_locals. rewrite Hn.
    change (Ok 20 ≫= ?k) with (k 20). cbv beta.
    change (20 * Stacker.cores_per_node) with 320.
    rewrite int_truediv_pos by lia.
    destruct (round64_finite n 320 ltac:(lia) Hl Hhi) as (m & e & ->).
    eexists. reflexivity.
Qed.

Lemma locals_overflow n :
  Stacker.overflow_threshold <= n ->
  Stacker.estimate_job_size_locals n = Raise OverflowError.
Proof.
  intros Hn.
  assert (Hl : 320 <= n).
  { pose proof float_limit_pos. unfold Stacker.overflow_threshold in Hn.
    change (Stacker.max_nodes * Stacker.cores_per_node) with 320 in Hn. lia. }
  destruct (large_counts_nodes n Hl) as [Hnodes _].
  unfold Stacker.estimate_job_size_locals. rewrite Hnodes.
  change (Ok 20 ≫= ?k) with (k 20). cbv beta.
  change (20 * Stacker.cores_per_node) with 320.
  rewrite int_truediv_pos by lia.
  rewrite (round64_overflow n 320 ltac:(lia) Hn). reflexivity.
Qed.

Lemma estimate_job_size_in_range n :
  1 <= n < Stacker.overflow_threshold ->
  Stacker.estimate_job_size n = Ok (1, Py.lit "120m").
Proof.
  intros Hn. rewrite estimate_job_size_of_locals.
  destruct (locals_defined n Hn) as [l ->]. reflexivity.
Qed.

(** C1, as stated, fails at both ends of the non-negative counts: at a task
    count of zero the node count is 0 and the division by
    [nodes * cores_per_node] raises; at [320 * (2^1024 - 2^970)] the
    quotient by 320 is too large for a float. *)
Lemma C1_fails_at_zero :
  0 <= 0
  /\ Stacker.estimate_job_size 0 <> Ok (1, Py.lit "120m")
  /\ 0 <= Stacker.overflow_threshold
  /\ Stacker.estimate_job_size Stacker.overflow_threshold <> Ok (1, Py.lit "120m").
Proof.
  split; [lia|]. split; [vm_compute; discriminate|].
  split; [vm_compute; discriminate|]. vm_compute. discriminate.
Qed.

(** C1, amended: for every task count from 1 up to the float range,
    [estimate_job_size] returns exactly [(1, "120m")], whatever the
    proportional computation gives. *)
Theorem C1_estimate_job_size_constant n :
  1 <= n < Stacker.overflow_threshold ->
  Stacker.estimate_job_size n = Ok (1, Py.lit "120m").
Proof. exact (estimate_job_size_in_range n). Qed.

Lemma C1_estimate_job_size_constant_witness :
  1 <= 64 < Stacker.overflow_threshold
  /\ Stacker.estimate_job_size 64 = Ok (1, Py.lit "120m").
Proof.
  assert (H : 1 <= 64 < Stacker.overflow_threshold)
    by (split; [lia | vm_compute; reflexivity]).
  split; [exact H | exact (C1_estimate_job_size_constant 64 H)].
Defined.

(** C2, as stated, fails at a task count of zero: the proportional path
    gives 0 nodes and the tasks-per-core division divides by zero.  It also
    fails at [320 * (2^1024 - 2^970)], where the same division overflows. *)
Lemma C2_zero_tasks_divide_by_zero :
  0 <= 0
  /\ Stacker.estimate_nodes 0 = Ok 0
  /\ Py.int_truediv 0 (0 * Stacker.cores_per_node) = Raise ZeroDivisionError
  /\ ~ (exists v, Stacker.estimate_job_size 0 = Ok v)
  /\ 0 <= Stacker.overflow_threshold
  /\ Stacker.estimate_job_size Stacker.overflow_threshold = Raise OverflowError.
Proof.
  split; [lia|]. split; [vm_compute; reflexivity|].
  split; [vm_compute; reflexivity|].
  split; [intros [v Hv]; vm_compute in Hv; discriminate Hv|].
  split; [vm_compute; discriminate|]. vm_compute. reflexivity.
Qed.

(** C2, amended: on non-negative task counts [estimate_job_size] returns
    a value exactly from 1 up to the float range; a count of 0 raises
    [ZeroDivisionError] and a count whose quotient by 320 is too large for
    a float raises [OverflowError]. *)
Theorem C2_estimate_job_size_domain n :
  0 <= n ->
  (n = 0 -> Stacker.estimate_job_size n = Raise ZeroDivisionError)
  /\ ((exists v, Stacker.estimate_job_size n = Ok v)
      <-> 1 <= n < Stacker.overflow_threshold)
  /\ (Stacker.overflow_threshold <= n ->
      Stacker.estimate_job_size n = Raise OverflowError).
Proof.
  intros Hn. split; [|split].
  - intros ->. vm_compute. reflexivity.
  - split.
    + intros [v Hv].
      destruct (Z.eq_dec n 0) as [->|]; [vm_compute in Hv; discriminate Hv|].
      destruct (Z.lt_ge_cases n Stacker.overflow_threshold) as [|Hge]; [lia|].
      rewrite estimate_job_size_of_locals, (locals_overflow n Hge) in Hv.
      discriminate Hv.
    + intros H. eexists. apply estimate_job_size_in_range, H.
  - intros Hge. rewrite estimate_job_size_of_locals, (locals_overflow n Hge).
    reflexivity.
Qed.

Lemma C2_estimate_job_size_domain_witness :
  0 <= 5
  /\ (5 = 0 -> Stacker.estimate_job_size 5 = Raise ZeroDivisionError)
  /\ ((exists v, Stacker.estimate_job_size 5 = Ok v)
      <-> 1 <= 5 < Stacker.overflow_threshold)
  /\ (Stacker.overflow_threshold <= 5 ->
      Stacker.estimate_job_size 5 = Raise OverflowError).
Proof.
  assert (H : 0 <= 5) by lia.
  split; [exact H | exact (C2_estimate_job_size_domain 5 H)].
Defined.

(** C3, as stated, fails once the task count exceeds [320 * 2^45]: the
    quotient [n / 320] is a float, and for [n = 320 * 2^45 + 1] it rounds
    down to [2^45], so the computed tasks-per-core is one less than the
    ceiling of the exact quotient. *)
Lemma C3_fails_above_exact_limit :
  0 <= Stacker.exact_limit + 1
  /\ (exists l, Stacker.estimate_job_size_locals (Stacker.exact_limit + 1) = Ok l
                /\ Stacker.tasks_per_cpu l = 2 ^ 45)
  /\ Stacker.documented_tasks_per_core (Stacker.exact_limit + 1) = 2 ^ 45 + 1
  /\ ~ Stacker.follows_documented_formula (Stacker.exact_limit + 1).
Proof.
  split; [vm_compute; discriminate|].
  split; [eexists; split; vm_compute; reflexivity|].
  split; [vm_compute; reflexivity|].
  unfold Stacker.follows_documented_formula. vm_compute. discriminate.
Qed.

(** C3, amended: for every task count from 0 to [320 * 2^45] the node count
    computed before the override is the documented one ([ceil (n / 16 / 4)]
    below [20 * 16] tasks, otherwise 20), and from 1 on the computed
    tasks-per-core and wall time are the documented
    [ceil (n / (nodes * 16))] and 5 minutes times it. *)
Theorem C3_computed_values_follow_formula n :
  0 <= n <= Stacker.exact_limit ->
  Stacker.estimate_nodes n = Ok (Stacker.documented_nodes n)
  /\ (1 <= n -> Stacker.follows_documented_formula n).
Proof.
  intros [Hlo Hhi].
  destruct (Z.lt_ge_cases n 320) as [Hs|Hl].
  - split; [apply small_counts_nodes; lia|].
    intros H1. apply small_counts_follow. lia.
  - destruct (large_counts_nodes n Hl) as [-> ->].
    split; [reflexivity|]. intros _. apply large_counts_follow. lia.
Qed.

Lemma C3_computed_values_follow_formula_witness :
  0 <= 64 <= Stacker.exact_limit
  /\ Stacker.documented_nodes 64 = 1
  /\ Stacker.estimate_nodes 64 = Ok (Stacker.documented_nodes 64)
  /\ (1 <= 64 -> Stacker.follows_documented_formula 64).
Proof.
  assert (H : 0 <= 64 <= Stacker.exact_limit)
    by (split; [lia | vm_compute; discriminate]).
  split; [exact H|]. split; [reflexivity|].
  exact (C3_computed_values_follow_formula 64 H).
Defined.

(** ** The stacker stages *)

Ltac run_stage :=
  cbv [Stacker.generate Stacker.run Stacker.emit Stacker.call Stacker.stage
       Py.try_finally Py.lift Py.raise Py.ret Py.pbind Py.bind
       mbind mret prog_bind prog_ret result_bind result_ret].

(** C4: when [save_tasks] reports zero tasks, [generate] logs and reaches
    [sys.exit(0)]; the module never imports [sys], so the name lookup
    raises [NameError]: no [run] job is submitted, but the process ends
    with exit status 1, not 0. *)
Theorem C4_generate_zero_tasks_raises_name_error
    {Config TaskDesc Tasks : Type} (E : Stacker.env Config TaskDesc Tasks)
    (task_desc_file tag : Py.str) (no_qsub : bool) config task_desc :
  Stacker._make_config_and_description E task_desc_file = Ok (config, task_desc) ->
  Stacker.save_tasks E config task_desc = Ok 0 ->
  Stacker.lookup_global "sys" = Raise (NameError "sys")
  /\ exists tr,
       Stacker.generate E task_desc_file no_qsub tag [] = (tr, Raise (NameError "sys"))
       /\ filter Stacker.is_submission tr = []
       /\ Py.exit_status (snd (Stacker.generate E task_desc_file no_qsub tag [])) = 1.
Proof.
  intros Hcfg Hsave. split; [reflexivity|].
  run_stage. rewrite Hcfg. cbv beta iota. rewrite Hsave. cbv beta iota.
  change (0 =? 0) with true. cbv beta iota.
  change (Stacker.lookup_global "sys") with (@Raise unit (NameError "sys")).
  cbv beta iota.
  eexists. split; [reflexivity|]. split; reflexivity.
Qed.

Lemma C4_generate_zero_tasks_raises_name_error_witness :
  Stacker._make_config_and_description
      (Examples.stacker_env 0 (Ok tt) (Ok tt)) (Py.lit "task-desc.yaml") = Ok (tt, tt)
  /\ Stacker.save_tasks (Examples.stacker_env 0 (Ok tt) (Ok tt)) tt tt = Ok 0
  /\ Stacker.lookup_global "sys" = Raise (NameError "sys")
  /\ exists tr,
       Stacker.generate (Examples.stacker_env 0 (Ok tt) (Ok tt))
         (Py.lit "task-desc.yaml") false (Py.lit "notset") []
       = (tr, Raise (NameError "sys"))
       /\ filter Stacker.is_submission tr = []
       /\ Py.exit_status
            (snd (Stacker.generate (Examples.stacker_env 0 (Ok tt) (Ok tt))
                    (Py.lit "task-desc.yaml") false (Py.lit "notset") [])) = 1.
Proof.
  split; [reflexivity|]. split; [reflexivity|].
  exact (C4_generate_zero_tasks_raises_name_error
           (Examples.stacker_env 0 (Ok tt) (Ok tt))
           (Py.lit "task-desc.yaml") (Py.lit "notset") false tt tt
           eq_refl eq_refl).
Defined.

(** C7: in [run], whenever the task runner is invoked, [runner.stop()] is
    called after it, whether the runner returns or raises (and whatever
    [stop] itself then does). *)
Theorem C7_runner_stop_on_every_exit_path
    {Config TaskDesc Tasks : Type} (E : Stacker.env Config TaskDesc Tasks)
    (dry_run : bool) (tag task_desc_file : Py.str) tr r :
  Stacker.run E dry_run tag task_desc_file [] = (tr, r) ->
  Stacker.RunnerCall ∈ tr ->
  exists before after,
    tr = before ++ Stacker.RunnerCall :: after /\ Stacker.RunnerStop ∈ after.
Proof.
  run_stage.
  destruct (Stacker.load_structure E task_desc_file) as [task_desc|e];
    [|intros [= <- <-] Hin; cbn in Hin; not_in_log Hin].
  destruct (Stacker.load_tasks E task_desc) as [[config tasks]|e];
    [|intros [= <- <-] Hin; cbn in Hin; not_in_log Hin].
  destruct dry_run.
  - destruct (Stacker.check_existing_files E tasks);
      intros [= <- <-] Hin; cbn in Hin; not_in_log Hin.
  - intros Hrun _.
    destruct (Stacker.runner E task_desc tasks config);
      destruct (Stacker.runner_stop E); injection Hrun as <- <-;
      (eexists [_; _], _; split; [reflexivity | list_member]).
Qed.

Lemma C7_runner_stop_on_every_exit_path_witness :
  Stacker.run (Examples.stacker_env 3 (Raise (External "worker lost")) (Ok tt))
    false (Py.lit "notset") (Py.lit "task-desc.yaml") []
  = ([ Stacker.LogInfo "Starting Fractional Cover processing..." [];
       Stacker.LogInfo "Tag: %r" [Stacker.VStr (Py.lit "notset")];
       Stacker.RunnerCall; Stacker.RunnerStop ],
     Raise (External "worker lost"))
  /\ exists before after,
       [ Stacker.LogInfo "Starting Fractional Cover processing..." [];
         Stacker.LogInfo "Tag: %r" [Stacker.VStr (Py.lit "notset")];
         Stacker.RunnerCall; Stacker.RunnerStop ]
       = before ++ Stacker.RunnerCall :: after /\ Stacker.RunnerStop ∈ after.
Proof.
  split; [reflexivity|].
  refine (C7_runner_stop_on_every_exit_path
            (Examples.stacker_env 3 (Raise (External "worker lost")) (Ok tt))
            false (Py.lit "notset") (Py.lit "task-desc.yaml") _ _ eq_refl _).
  list_member.
Defined.

(** ** The tile-sync submitter *)

Section TileSyncFacts.

Context {W path : Type} (E : TileSync.env W path).
Variables (name : Py.str) (folder run_directory : path) (submit_limit c : Z).

Local Notation "'loop'" :=
  (TileSync.submit_loop E name folder run_directory submit_limit c).
Local Notation "'runs'" :=
  (TileSync.loop_run E name run_directory submit_limit c).
Local Notation "'command_of' tile_x fs dep" :=
  (TileSync.submit_argv E (TileSync.error_path E run_directory name tile_x) fs
     (TileSync.output_path E run_directory name tile_x)
     (TileSync.subjob_name name tile_x) dep)
  (at level 10, tile_x at level 9, fs at level 9, dep at level 9).

(** One iteration of the loop, case by case. *)
Lemma submit_loop_cons i tile_x rest slots st :
  loop i (tile_x :: rest) slots st =
    if i =? submit_limit then
      ({| TileSync.world := TileSync.world st;
          TileSync.trace := TileSync.trace st ++ [TileSync.LimitReached submit_limit] |},
       Ok slots)
    else if TileSync.path_exists E (TileSync.world st)
              (TileSync.output_path E run_directory name tile_x) then
      loop (i + 1) rest slots
        {| TileSync.world := TileSync.world st;
           TileSync.trace :=
             TileSync.trace st ++ [TileSync.Skipped i (TileSync.subjob_name name tile_x)] |}
    else if c =? 0 then (st, Raise ZeroDivisionError)
    else
      match TileSync.glob E (TileSync.world st) folder
              (Py.str_of_int tile_x ++ Py.lit "_*") with
      | Raise e => (st, Raise e)
      | Ok input_folders =>
          let argv := command_of tile_x input_folders (slots !! (i `mod` c)) in
          let wo := TileSync.check_output E (TileSync.world st) argv in
          match wo.2 ≫= TileSync.parse_job_id with
          | Raise e =>
              ({| TileSync.world := wo.1;
                  TileSync.trace := TileSync.trace st ++ [TileSync.Submit i argv (Raise e)] |},
               Raise e)
          | Ok job_id =>
              loop (i + 1) rest (<[i `mod` c := job_id]> slots)
                {| TileSync.world := TileSync.sleep E wo.1 TileSync.SUBMIT_THROTTLE_SECS;
                   TileSync.trace :=
                     TileSync.trace st ++
                       [ TileSync.Submit i argv (Ok job_id);
                         TileSync.Submitted i (TileSync.subjob_name name tile_x) job_id;
                         TileSync.Sleep TileSync.SUBMIT_THROTTLE_SECS ] |}
          end
      end.
Proof.
  cbn [TileSync.submit_loop].
  destruct (i =? submit_limit); [reflexivity|].
  cbv [mbind prog_bind Py.pbind TileSync.ask TileSync.emit TileSync.pause
       Py.lift TileSync.py_mod].
  destruct (TileSync.path_exists E (TileSync.world st) _); [reflexivity|].
  destruct (c =? 0); [reflexivity|].
  destruct (TileSync.glob E (TileSync.world st) folder _) as [input_folders|e];
    [|reflexivity].
  unfold TileSync.submit_job. cbv zeta.
  destruct (TileSync.check_output E (TileSync.world st) _) as [w output].
  cbn [fst snd TileSync.world TileSync.trace].
  destruct output as [output|e]; cbv [mbind result_bind Py.bind];
    [destruct (TileSync.parse_job_id output) as [job_id|e]|];
    rewrite <- ?app_assoc; reflexivity.
Qed.

(** Every execution of the loop is a run of the relation. *)
Lemma loop_sound tile_xs : forall i slots st st' r,
  loop i tile_xs slots st = (st', r) ->
  exists evs,
    TileSync.trace st' = TileSync.trace st ++ evs /\ runs i tile_xs slots evs r.
Proof.
  induction tile_xs as [|tile_x rest IH]; intros i slots st st' r.
  - intros [= <- <-]. exists []. rewrite app_nil_r. split; [reflexivity | constructor].
  - rewrite submit_loop_cons.
    destruct (Z.eqb_spec i submit_limit) as [Hi|Hi].
    { intros [= <- <-]. eexists. split; [reflexivity | by constructor]. }
    destruct (TileSync.path_exists E (TileSync.world st) _).
    { intros Hrun. apply IH in Hrun as (evs & Htr & Hrun). cbn in Htr.
      eexists. split; [rewrite Htr, <- app_assoc; reflexivity|].
      by constructor. }
    destruct (Z.eqb_spec c 0) as [Hc|Hc].
    { intros [= <- <-]. exists []. rewrite app_nil_r.
      split; [reflexivity | by constructor]. }
    destruct (TileSync.glob E (TileSync.world st) folder _) as [input_folders|e].
    2:{ intros [= <- <-]. exists []. rewrite app_nil_r.
        split; [reflexivity | by constructor]. }
    cbv zeta.
    destruct (_ ≫= TileSync.parse_job_id) as [job_id|e].
    + intros Hrun. apply IH in Hrun as (evs & Htr & Hrun). cbn in Htr.
      eexists. split; [rewrite Htr, <- app_assoc; reflexivity|].
      by constructor.
    + intros [= <- <-]. eexists. split; [reflexivity | by constructor].
Qed.



Lemma mod_shift i : c <> 0 -> (i + c) `mod` c = i `mod` c.
Proof.
  intros Hc. replace (i + c) with (i + 1 * c) by lia. apply Z.mod_add. exact Hc.
Qed.

Lemma mod_distinct i j : 0 < c -> i < j < i + c -> j `mod` c <> i `mod` c.
Proof.
  intros Hc Hj Heq.
  pose proof (Z.div_mod i c ltac:(lia)). pose proof (Z.div_mod j c ltac:(lia)).
  assert (j - i = c * (j / c - i / c)) by lia.
  assert (0 < j / c - i / c) by nia.
  nia.
Qed.

(** Each submission of a run depends on what its slot held when it was
    made: the slot map at the start, updated by the successful submissions
    logged before it. *)
Lemma run_slot_discipline i tile_xs slots evs r :
  runs i tile_xs slots evs r ->
  forall before j argv outcome after,
    evs = before ++ TileSync.Submit j argv outcome :: after ->
    TileSync.declares argv
      (TileSync.requirements_for
         (foldl (TileSync.record_submission c) slots before !! (j `mod` c))).
Proof.
  induction 1 as [ i slots | i tile_x rest slots Hi | i tile_x rest slots evs r Hi Hrun IH
                 | i tile_x rest slots e Hi | i tile_x rest slots fs e Hi Hc
                 | i tile_x rest slots fs job_id evs r Hi Hc Hrun IH ];
    intros before j argv outcome after Hsplit.
  - by destruct before.
  - destruct before as [|? [|]]; discriminate Hsplit.
  - destruct before as [|ev before]; [discriminate Hsplit|].
    injection Hsplit as <- Hsplit. cbn. exact (IH _ _ _ _ _ Hsplit).
  - by destruct before.
  - destruct before as [|? [|]]; [|discriminate Hsplit..].
    injection Hsplit as <- <- <-. cbn. by eexists _, _, _, _.
  - destruct before as [|ev0 before].
    { injection Hsplit as <- <- <- _. cbn. by eexists _, _, _, _. }
    injection Hsplit as <- Hsplit.
    destruct before as [|ev1 before]; [discriminate Hsplit|].
    injection Hsplit as <- Hsplit.
    destruct before as [|ev2 before]; [discriminate Hsplit|].
    injection Hsplit as <- Hsplit.
    cbn. exact (IH _ _ _ _ _ Hsplit).
Qed.

(** Without skipped tiles and with a positive number of slots, the
    submission at index [j] depends on the start map for the first [c]
    indices of the run and on the submission at index [j - c] afterwards. *)
Lemma run_chain i tile_xs slots evs r :
  runs i tile_xs slots evs r ->
  0 < c -> TileSync.no_skip evs ->
  forall j argv outcome,
    TileSync.Submit j argv outcome ∈ evs ->
    i <= j
    /\ (j < i + c ->
        TileSync.declares argv (TileSync.requirements_for (slots !! (j `mod` c))))
    /\ (i + c <= j ->
        exists argv' job_id,
          TileSync.Submit (j - c) argv' (Ok job_id) ∈ evs
          /\ TileSync.declares argv (TileSync.requirements_for (Some job_id))).
Proof.
  induction 1 as [ i slots | i tile_x rest slots Hi | i tile_x rest slots evs r Hi Hrun IH
                 | i tile_x rest slots e Hi | i tile_x rest slots fs e Hi Hc
                 | i tile_x rest slots fs job_id evs r Hi Hc Hrun IH ];
    intros Hpos Hskip j argv outcome Hin.
  - by apply elem_of_nil in Hin.
  - apply list_elem_of_singleton in Hin. discriminate Hin.
  - exfalso. apply (Hskip i (TileSync.subjob_name name tile_x)).
    apply list_elem_of_here.
  - by apply elem_of_nil in Hin.
  - apply list_elem_of_singleton in Hin. injection Hin as -> -> ->.
    split; [lia|]. split; [|lia]. intros _. by eexists _, _, _, _.
  - apply elem_of_cons in Hin as [Hin|Hin].
    { injection Hin as -> -> ->.
      split; [lia|]. split; [|lia]. intros _. by eexists _, _, _, _. }
    apply elem_of_cons in Hin as [Hin|Hin]; [discriminate Hin|].
    apply elem_of_cons in Hin as [Hin|Hin]; [discriminate Hin|].
    assert (Hskip' : TileSync.no_skip evs).
    { intros i' n' Hin'. apply (Hskip i' n'). by do 3 apply list_elem_of_further. }
    destruct (IH Hpos Hskip' j argv outcome Hin) as (Hle & Hnear & Hfar).
    split; [lia|]. split.
    + intros Hj. specialize (Hnear ltac:(lia)).
      rewrite lookup_insert_ne in Hnear; [exact Hnear|].
      intros Heq. apply (mod_distinct i j Hpos); [lia | by symmetry].
    + intros Hj. destruct (Z.eq_dec j (i + c)) as [->|Hne].
      * specialize (Hnear ltac:(lia)).
        rewrite mod_shift, lookup_insert_eq in Hnear by lia.
        eexists _, job_id. split; [|exact Hnear].
        replace (i + c - c) with i by lia. apply list_elem_of_here.
      * destruct (Hfar ltac:(lia)) as (argv' & job_id' & Hin' & Hdecl).
        exists argv', job_id'.
        split; [by do 3 apply list_elem_of_further | exact Hdecl].
Qed.

End TileSyncFacts.

(** [main] either stops before the loop with the state untouched, or
    announces the tiles found and runs the loop from index 0 with an empty
    slot map. *)
Lemma main_runs {W path : Type} (E : TileSync.env W path)
    (name : Py.str) (folder : path) (submit_limit c : Z) st st' r :
  TileSync.main E name folder submit_limit c st = (st', r) ->
  (st' = st /\ exists e, r = Raise e)
  \/ exists tile_xs evs r',
       TileSync.trace st' = TileSync.trace st ++ TileSync.Found (Z.of_nat (length tile_xs)) :: evs
       /\ TileSync.loop_run E name
            (TileSync.absolute E (TileSync.world st) (TileSync.Path E (Py.lit "runs")))
            submit_limit c 0 tile_xs ∅ evs r'.
Proof.
  unfold TileSync.main, TileSync.find_tile_xs.
  cbv [mbind mret prog_bind prog_ret Py.pbind Py.ret Py.raise Py.lift
       TileSync.ask TileSync.emit].
  destruct (TileSync.path_exists E (TileSync.world st) _); cbn [negb];
    [|intros [= <- <-]; left; eauto].
  destruct (TileSync.iterdir E (TileSync.world st) _) as [entries|e];
    [|intros [= <- <-]; left; eauto].
  destruct (mapM _ _) as [xs|e]; [|intros [= <- <-]; left; eauto].
  set (tile_xs := merge_sort Z.le (elements (list_to_set xs))).
  destruct (TileSync.submit_loop _ _ _ _ _ _ _ _ _ _) as [st1 r1] eqn:Hloop.
  apply loop_sound in Hloop as (evs & Htr & Hrun). cbn in Htr.
  intros Hres. right. exists tile_xs, evs, r1. split; [|exact Hrun].
  destruct r1; injection Hres as <- <-; rewrite Htr, <- app_assoc; reflexivity.
Qed.

Lemma run_indices {W path : Type} (E : TileSync.env W path) name run_directory
    submit_limit c i tile_xs slots evs r :
  TileSync.loop_run E name run_directory submit_limit c i tile_xs slots evs r ->
  (forall j argv outcome, TileSync.Submit j argv outcome ∈ evs -> i <= j)
  /\ (forall j n, TileSync.Skipped j n ∈ evs -> i <= j).
Proof.
  induction 1 as [ i slots | i tile_x rest slots Hi | i tile_x rest slots evs r Hi Hrun IH
                 | i tile_x rest slots e Hi | i tile_x rest slots fs e Hi Hc
                 | i tile_x rest slots fs job_id evs r Hi Hc Hrun IH ].
  - split; [intros j argv outcome Hin | intros j n Hin];
      by apply elem_of_nil in Hin.
  - split; [intros j argv outcome Hin | intros j n Hin];
      apply list_elem_of_singleton in Hin; discriminate Hin.
  - destruct IH as [IHsub IHskip]. split.
    + intros j argv outcome Hin.
      apply elem_of_cons in Hin as [Hin|Hin]; [discriminate Hin|].
      apply IHsub in Hin. lia.
    + intros j n Hin.
      apply elem_of_cons in Hin as [Hin|Hin]; [injection Hin as -> _; lia|].
      apply IHskip in Hin. lia.
  - split; [intros j argv outcome Hin | intros j n Hin];
      by apply elem_of_nil in Hin.
  - split.
    + intros j argv outcome Hin.
      apply list_elem_of_singleton in Hin. injection Hin as -> _ _. lia.
    + intros j n Hin. apply list_elem_of_singleton in Hin. discriminate Hin.
  - destruct IH as [IHsub IHskip]. split.
    + intros j argv outcome Hin.
      apply elem_of_cons in Hin as [Hin|Hin]; [injection Hin as -> _ _; lia|].
      do 2 (apply elem_of_cons in Hin as [Hin|Hin]; [discriminate Hin|]).
      apply IHsub in Hin. lia.
    + intros j n Hin.
      do 3 (apply elem_of_cons in Hin as [Hin|Hin]; [discriminate Hin|]).
      apply IHskip in Hin. lia.
Qed.

Lemma run_skip_no_submit {W path : Type} (E : TileSync.env W path) name run_directory
    submit_limit c i tile_xs slots evs r :
  TileSync.loop_run E name run_directory submit_limit c i tile_xs slots evs r ->
  forall j n argv outcome,
    TileSync.Skipped j n ∈ evs -> TileSync.Submit j argv outcome ∉ evs.
Proof.
  induction 1 as [ i slots | i tile_x rest slots Hi | i tile_x rest slots evs r Hi Hrun IH
                 | i tile_x rest slots e Hi | i tile_x rest slots fs e Hi Hc
                 | i tile_x rest slots fs job_id evs r Hi Hc Hrun IH ];
    intros j n argv outcome Hskip Hsub.
  - by apply elem_of_nil in Hskip.
  - apply list_elem_of_singleton in Hskip. discriminate Hskip.
  - destruct (run_indices _ _ _ _ _ _ _ _ _ _ Hrun) as [Hsubs Hskips].
    apply elem_of_cons in Hsub as [Hsub|Hsub]; [discriminate Hsub|].
    apply elem_of_cons in Hskip as [Hskip|Hskip].
    + injection Hskip as -> ->. apply Hsubs in Hsub. lia.
    + exact (IH _ _ _ _ Hskip Hsub).
  - by apply elem_of_nil in Hskip.
  - apply list_elem_of_singleton in Hskip. discriminate Hskip.
  - destruct (run_indices _ _ _ _ _ _ _ _ _ _ Hrun) as [Hsubs Hskips].
    do 3 (apply elem_of_cons in Hskip as [Hskip|Hskip]; [discriminate Hskip|]).
    apply elem_of_cons in Hsub as [Hsub|Hsub].
    { injection Hsub as -> _ _. apply Hskips in Hskip. lia. }
    do 2 (apply elem_of_cons in Hsub as [Hsub|Hsub]; [discriminate Hsub|]).
    exact (IH _ _ _ _ Hskip Hsub).
Qed.

Lemma requirements_cases (dep : option Py.str) :
  TileSync.requirements_for dep = []
  \/ exists d, TileSync.requirements_for dep = [Py.lit "-W"; d].
Proof.
  destruct dep as [job_id|]; [|by left]. unfold TileSync.requirements_for.
  destruct (Py.truthy job_id); [right; eauto | by left].
Qed.

(** A command declares one dependency list only. *)
Lemma declares_requirements_inj argv a b :
  TileSync.declares argv (TileSync.requirements_for a) ->
  TileSync.declares argv (TileSync.requirements_for b) ->
  TileSync.requirements_for a = TileSync.requirements_for b.
Proof.
  intros (e1 & o1 & fs1 & n1 & H1) (e2 & o2 & fs2 & n2 & H2).
  rewrite H1 in H2. clear H1. unfold TileSync.qsub_argv in H2.
  destruct (requirements_cases a) as [Ha|[d1 Ha]],
           (requirements_cases b) as [Hb|[d2 Hb]];
    rewrite Ha, Hb in H2 |- *; cbn [app] in H2;
    do 20 (apply (f_equal (drop 1)) in H2; cbn [drop] in H2).
  - reflexivity.
  - injection H2 as H2 _. vm_compute in H2. discriminate H2.
  - injection H2 as H2 _. vm_compute in H2. discriminate H2.
  - injection H2 as Hd _. rewrite Hd. reflexivity.
Qed.

(** C5, as stated, fails on runs with four slots and five tiles, none
    skipped.  When [qsub] answers ["70.r-man2"] and a new line,
    [submit_job] returns the id with the new line still on it, and the
    submission at index 4 declares [depend=afterok:70.r-man2], the id
    without it.  When the first [qsub] prints nothing, the id returned at
    index 0 is the empty string and the submission at index 4 declares no
    dependency at all. *)
Lemma C5_declared_dependency_is_stripped :
  (let evs :=
     TileSync.trace
       (TileSync.main Examples.five_tiles_env (Py.lit "5fc") Examples.data_folder 10 4
                      Examples.fresh).1 in
   TileSync.no_skip evs
   /\ ~ TileSync.chained TileSync.depend_afterok 4 evs)
  /\ (let evs :=
        TileSync.trace
          (TileSync.main Examples.quiet_first_env (Py.lit "5fc") Examples.data_folder 10 4
                         Examples.fresh).1 in
      TileSync.no_skip evs
      /\ (exists argv, TileSync.Submit 0 argv (Ok []) ∈ evs)
      /\ (exists argv outcome,
            TileSync.Submit 4 argv outcome ∈ evs /\ TileSync.declares argv [])
      /\ ~ TileSync.chained TileSync.depend_afterok 4 evs).
Proof.
  split; cbv zeta.
  - remember (TileSync.main Examples.five_tiles_env (Py.lit "5fc") Examples.data_folder
                10 4 Examples.fresh) as res eqn:Hres.
    vm_compute in Hres. subst res. cbn [fst TileSync.trace].
    split; [intros i n Hin; not_in_log Hin|].
    intros Hch.
    edestruct (Hch 4) as [_ Hfar]; [list_member|].
    destruct (Hfar ltac:(lia)) as (argv' & job_id & Hin & Hdecl).
    change (4 - 4) with 0 in Hin.
    apply elem_of_cons in Hin as [Hin|Hin]; [discriminate Hin|].
    apply elem_of_cons in Hin as [Hin|Hin]; [|not_in_log Hin].
    injection Hin as _ ->.
    destruct Hdecl as (e & o & fs & n & Heq).
    vm_compute in Heq. discriminate Heq.
  - remember (TileSync.main Examples.quiet_first_env (Py.lit "5fc") Examples.data_folder
                10 4 Examples.fresh) as res eqn:Hres.
    vm_compute in Hres. subst res. cbn [fst TileSync.trace].
    split; [intros i n Hin; not_in_log Hin|].
    split; [eexists; list_member|].
    split.
    { eexists _, _. split; [list_member|].
      eexists _, _, _, _. unfold TileSync.qsub_argv. vm_compute. reflexivity. }
    intros Hch.
    edestruct (Hch 4) as [_ Hfar]; [list_member|].
    destruct (Hfar ltac:(lia)) as (argv' & job_id & Hin & Hdecl).
    change (4 - 4) with 0 in Hin.
    apply elem_of_cons in Hin as [Hin|Hin]; [discriminate Hin|].
    apply elem_of_cons in Hin as [Hin|Hin]; [|not_in_log Hin].
    injection Hin as _ ->.
    destruct Hdecl as (e & o & fs & n & Heq).
    vm_compute in Heq. discriminate Heq.
Qed.

(** C5, amended: with a positive number [c] of slots, in every run of the
    submitter in which no tile is skipped, the submission at loop index
    [i < c] declares no dependency, and the one at index [i >= c] declares
    what [submit_job] makes of the job id returned at index [i - c]:
    [-W depend=afterok:] followed by that id with surrounding white space
    stripped, or nothing when that id is the empty string. *)
Theorem C5_chained_on_stripped_job_id {W path : Type} (E : TileSync.env W path)
    (name : Py.str) (folder : path) (submit_limit c : Z) st st' r :
  0 < c ->
  TileSync.main E name folder submit_limit c st = (st', r) ->
  exists evs,
    TileSync.trace st' = TileSync.trace st ++ evs
    /\ (TileSync.no_skip evs ->
        TileSync.chained (fun job_id => TileSync.requirements_for (Some job_id)) c evs).
Proof.
  intros Hc Hmain.
  destruct (main_runs E name folder submit_limit c st st' r Hmain)
    as [[-> _] | (tile_xs & evs & r' & Htr & Hrun)].
  - exists []. rewrite app_nil_r. split; [reflexivity|].
    intros _ i argv outcome Hin. by apply elem_of_nil in Hin.
  - eexists. split; [exact Htr|].
    intros Hskip i argv outcome Hin.
    apply elem_of_cons in Hin as [Hin|Hin]; [discriminate Hin|].
    assert (Hskip' : TileSync.no_skip evs).
    { intros i' n' Hin'. apply (Hskip i' n'). by apply list_elem_of_further. }
    destruct (run_chain E name _ submit_limit c 0 tile_xs ∅ evs r' Hrun Hc Hskip'
                i argv outcome Hin) as (Hle & Hnear & Hfar).
    split.
    + intros Hi. specialize (Hnear ltac:(lia)).
      rewrite lookup_empty in Hnear. exact Hnear.
    + intros Hi. destruct (Hfar ltac:(lia)) as (argv' & job_id & Hin' & Hdecl).
      exists argv', job_id. split; [by apply list_elem_of_further | exact Hdecl].
Qed.

Lemma C5_chained_on_stripped_job_id_witness :
  0 < 4
  /\ exists evs,
       TileSync.trace
         (TileSync.main Examples.five_tiles_env (Py.lit "5fc") Examples.data_folder 10 4
                        Examples.fresh).1
       = TileSync.trace Examples.fresh ++ evs
       /\ TileSync.no_skip evs
       /\ TileSync.chained (fun job_id => TileSync.requirements_for (Some job_id)) 4 evs.
Proof.
  split; [lia|].
  destruct (C5_chained_on_stripped_job_id Examples.five_tiles_env (Py.lit "5fc")
              Examples.data_folder 10 4 Examples.fresh _ _ ltac:(lia)
              (surjective_pairing _)) as (evs & Htr & Hchain).
  exists evs. split; [exact Htr|].
  assert (Hskip : TileSync.no_skip evs).
  { cbn [Examples.fresh TileSync.trace app] in Htr. rewrite <- Htr.
    vm_compute. intros i n Hin. not_in_log Hin. }
  split; [exact Hskip | exact (Hchain Hskip)].
Defined.

(** C6: at a tile whose output file exists the loop submits nothing and
    hands its slot map on unchanged: it either stops (the cap is reached)
    or prints the skip line and goes on to the next index with the same
    map.  In a whole run no submission carries the index of a skipped
    tile, and every submission, before or after a skip, declares the
    dependency made of the job id last recorded in its slot [i mod c] by
    the successful submissions before it. *)
Theorem C6_skip_leaves_slots_and_reuse_stays_correct
    {W path : Type} (E : TileSync.env W path)
    (name : Py.str) (submit_limit c : Z) :
  (forall folder run_directory i tile_x rest slots st,
     TileSync.path_exists E (TileSync.world st)
       (TileSync.output_path E run_directory name tile_x) = true ->
     TileSync.submit_loop E name folder run_directory submit_limit c
       i (tile_x :: rest) slots st
     = if i =? submit_limit then
         ({| TileSync.world := TileSync.world st;
             TileSync.trace :=
               TileSync.trace st ++ [TileSync.LimitReached submit_limit] |},
          Ok slots)
       else
         TileSync.submit_loop E name folder run_directory submit_limit c
           (i + 1) rest slots
           {| TileSync.world := TileSync.world st;
              TileSync.trace :=
                TileSync.trace st
                ++ [TileSync.Skipped i (TileSync.subjob_name name tile_x)] |})
  /\ (forall folder st st' r,
        TileSync.main E name folder submit_limit c st = (st', r) ->
        exists evs,
          TileSync.trace st' = TileSync.trace st ++ evs
          /\ (forall i n argv outcome,
                TileSync.Skipped i n ∈ evs -> TileSync.Submit i argv outcome ∉ evs)
          /\ (forall before i argv outcome after,
                evs = before ++ TileSync.Submit i argv outcome :: after ->
                TileSync.declares argv
                  (TileSync.requirements_for
                     (TileSync.slots_after c before !! (i `mod` c))))).
Proof.
  split.
  - intros folder run_directory i tile_x rest slots st Hex.
    rewrite submit_loop_cons, Hex. reflexivity.
  - intros folder st st' r Hmain.
    destruct (main_runs E name folder submit_limit c st st' r Hmain)
      as [[-> _] | (tile_xs & evs & r' & Htr & Hrun)].
    + exists []. rewrite app_nil_r. split; [reflexivity|]. split.
      * intros i n argv outcome Hin. by apply elem_of_nil in Hin.
      * intros before i argv outcome after Hsplit. by destruct before.
    + eexists. split; [exact Htr|]. split.
      * intros i n argv outcome Hskip Hsub.
        apply elem_of_cons in Hskip as [Hskip|Hskip]; [discriminate Hskip|].
        apply elem_of_cons in Hsub as [Hsub|Hsub]; [discriminate Hsub|].
        exact (run_skip_no_submit E name _ submit_limit c 0 tile_xs ∅ evs r' Hrun
                 i n argv outcome Hskip Hsub).
      * intros before i argv outcome after Hsplit.
        destruct before as [|ev before]; [discriminate Hsplit|].
        injection Hsplit as <- Hsplit.
        exact (run_slot_discipline E name _ submit_limit c 0 tile_xs ∅ evs r' Hrun
                 before i argv outcome after Hsplit).
Qed.

(** C9: if the input folder does not exist, [main] raises [ValueError]
    at once: the state it leaves is the one it started from, so nothing
    was printed and no job was submitted. *)
Theorem C9_missing_folder_raises_before_any_submission
    {W path : Type} (E : TileSync.env W path)
    (name : Py.str) (folder : path) (submit_limit c : Z) st :
  TileSync.path_exists E (TileSync.world st)
    (TileSync.absolute E (TileSync.world st) folder) = false ->
  TileSync.main E name folder submit_limit c st
  = (st, Raise (ValueError
                  (Py.lit "Folder doesn't exist: "
                   ++ TileSync.path_str E (TileSync.absolute E (TileSync.world st) folder)))).
Proof.
  intros Hex. unfold TileSync.main.
  cbv [mbind prog_bind Py.pbind Py.raise TileSync.ask].
  rewrite Hex. reflexivity.
Qed.

Lemma C9_missing_folder_raises_before_any_submission_witness :
  TileSync.path_exists Examples.empty_env (TileSync.world Examples.fresh)
    (TileSync.absolute Examples.empty_env (TileSync.world Examples.fresh)
       Examples.data_folder) = false
  /\ TileSync.main Examples.empty_env (Py.lit "5fc") Examples.data_folder 4 4 Examples.fresh
     = (Examples.fresh,
        Raise (ValueError (Py.lit "Folder doesn't exist: /g/data/fc"))).
Proof.
  split; [reflexivity|].
  exact (C9_missing_folder_raises_before_any_submission Examples.empty_env
           (Py.lit "5fc") Examples.data_folder 4 4 Examples.fresh eq_refl).
Defined.

Lemma lstrip_keeps_last (f : N -> bool) (s : Py.str) (c : N) :
  f c = false -> exists t, Py.lstrip_by f (s ++ [c]) = t ++ [c].
Proof.
  intros Hc. induction s as [|a s IH]; cbn.
  - rewrite Hc. by exists [].
  - destruct (f a); [exact IH | by exists (a :: s)].
Qed.

Lemma rstrip_keeps_last (f : N -> bool) (s : Py.str) (c : N) :
  f c = false -> Py.rstrip_by f (s ++ [c]) = s ++ [c].
Proof.
  intros Hc. induction s as [|a s IH]; cbn.
  - by rewrite Hc.
  - rewrite IH. by destruct s.
Qed.

(** C8: the job id [submit_job] returns keeps the new line that ends the
    output of [qsub].  The characters given to [strip] are a space, a
    backslash and the letter n, so a trailing new line stays whatever the
    output is, and an id that ends in n loses it once it is exposed; the
    whitespace [strip()] of the dependency argument does remove the new
    line. *)
Theorem C8_job_id_keeps_trailing_new_line :
  (forall text : Py.str,
     exists kept, Py.strip_chars (Py.lit " \n") (text ++ [10%N]) = kept ++ [10%N])
  /\ TileSync.parse_job_id ("1234.r-man2" +:+ Examples.nl)
     = Ok (Py.lit "1234.r-man2" ++ [10%N])
  /\ TileSync.parse_job_id "123.raijin " = Ok (Py.lit "123.raiji")
  /\ Py.strip (Py.lit "1234.r-man2" ++ [10%N]) = Py.lit "1234.r-man2".
Proof.
  split; [|repeat split; vm_compute; reflexivity].
  intros text. unfold Py.strip_chars.
  set (f := fun c : N => bool_decide (c ∈ Py.lit " \n")).
  assert (Hf : f 10%N = false) by (vm_compute; reflexivity).
  destruct (lstrip_keeps_last f text 10%N Hf) as [t ->].
  exists t. exact (rstrip_keeps_last f t 10%N Hf).
Qed.

(** With a cap [submit_limit >= 0], the loop from index [i <= submit_limit]
    is the loop without a cap over the next [submit_limit - i] tiles,
    followed by the line announcing the cap when tiles are left. *)
Lemma loop_limit_take {W path : Type} (E : TileSync.env W path)
    (name : Py.str) (folder run_directory : path) (submit_limit c : Z) tile_xs :
  forall i slots st,
    0 <= i <= submit_limit ->
    TileSync.submit_loop E name folder run_directory submit_limit c i tile_xs slots st
    = match TileSync.submit_loop E name folder run_directory (-1) c i
              (take (Z.to_nat (submit_limit - i)) tile_xs) slots st with
      | (st', Ok m) =>
          if (Z.to_nat (submit_limit - i) <? length tile_xs)%nat
          then ({| TileSync.world := TileSync.world st';
                   TileSync.trace := TileSync.trace st' ++ [TileSync.LimitReached submit_limit] |},
                Ok m)
          else (st', Ok m)
      | (st', Raise e) => (st', Raise e)
      end.
Proof.
  induction tile_xs as [|tile_x rest IH]; intros i slots st Hi.
  - rewrite take_nil. reflexivity.
  - rewrite submit_loop_cons.
    destruct (Z.eqb_spec i submit_limit) as [->|Hne].
    + rewrite Z.sub_diag. reflexivity.
    + replace (Z.to_nat (submit_limit - i)) with (S (Z.to_nat (submit_limit - (i + 1))))
        by lia.
      cbn [take]. rewrite submit_loop_cons.
      destruct (Z.eqb_spec i (-1)); [lia|].
      change (S ?a <? length (tile_x :: rest))%nat with (a <? length rest)%nat.
      destruct (TileSync.path_exists E (TileSync.world st) _).
      { apply IH. lia. }
      destruct (c =? 0); [reflexivity|].
      destruct (TileSync.glob E (TileSync.world st) folder _); [|reflexivity].
      cbv zeta.
      destruct (_ ≫= TileSync.parse_job_id); [|reflexivity].
      apply IH. lia.
Qed.

(** C10: the cap counts the tiles considered.  With a cap
    [submit_limit >= 0] the loop is the uncapped loop over the first
    [submit_limit] tiles of the sorted list, skipped or not; and a run can
    end with fewer jobs than the cap while a tile is still unprocessed:
    with three tiles, the output of the first one present and a cap of 2,
    one job is submitted and the third tile is neither submitted nor
    done. *)
Theorem C10_cap_counts_tiles_considered :
  (forall (W path : Type) (E : TileSync.env W path) name folder run_directory
          submit_limit c tile_xs slots st,
     0 <= submit_limit ->
     TileSync.submit_loop E name folder run_directory submit_limit c 0 tile_xs slots st
     = match TileSync.submit_loop E name folder run_directory (-1) c 0
               (take (Z.to_nat submit_limit) tile_xs) slots st with
       | (st', Ok m) =>
           if (Z.to_nat submit_limit <? length tile_xs)%nat
           then ({| TileSync.world := TileSync.world st';
                    TileSync.trace :=
                      TileSync.trace st' ++ [TileSync.LimitReached submit_limit] |},
                 Ok m)
           else (st', Ok m)
       | (st', Raise e) => (st', Raise e)
       end)
  /\ (let run := TileSync.main Examples.rerun_env (Py.lit "5fc") Examples.data_folder 2 4
                               Examples.fresh in
      run.2 = Ok tt
      /\ (TileSync.find_tile_xs Examples.rerun_env Examples.data_folder Examples.fresh).2
         = Ok [1; 2; 3]
      /\ (Z.of_nat (length (filter TileSync.is_submitted (TileSync.trace run.1))) < 2)
      /\ TileSync.path_exists Examples.rerun_env (TileSync.world run.1)
           (TileSync.output_path Examples.rerun_env (Py.lit "/home/sync/runs")
              (Py.lit "5fc") 3) = false
      /\ forall argv outcome, TileSync.Submit 2 argv outcome ∉ TileSync.trace run.1).
Proof.
  split.
  - intros W path E name folder run_directory submit_limit c tile_xs slots st Hl.
    rewrite (loop_limit_take E name folder run_directory submit_limit c tile_xs 0 slots st)
      by lia.
    rewrite Z.sub_0_r. reflexivity.
  - cbv zeta.
    remember (TileSync.main Examples.rerun_env (Py.lit "5fc") Examples.data_folder 2 4
                Examples.fresh) as run eqn:Hrun.
    vm_compute in Hrun. subst run. cbn [fst snd TileSync.trace TileSync.world].
    split; [reflexivity|].
    split; [vm_compute; reflexivity|].
    split; [vm_compute; reflexivity|].
    split; [vm_compute; reflexivity|].
    intros argv outcome Hin. not_in_log Hin.
Qed.

(* ===================================================================== *)
(** * Further properties                                                  *)
(* ===================================================================== *)

(** ** The sizing computed by [estimate_job_size] *)

Lemma ceil_div_spec a b :
  0 < b -> (Stacker.ceil_div a b - 1) * b < a <= Stacker.ceil_div a b * b.
Proof.
  intros Hb. unfold Stacker.ceil_div.
  pose proof (Z.div_mod (- a) b ltac:(lia)).
  pose proof (Z.mod_pos_bound (- a) b Hb). nia.
Qed.

Lemma documented_nodes_range n :
  1 <= n -> 1 <= Stacker.documented_nodes n <= 20
            /\ (n < 320 -> Stacker.documented_nodes n <= 5
                           /\ n <= Stacker.documented_nodes n * 64)
            /\ (320 <= n -> Stacker.documented_nodes n = 20).
Proof.
  intros Hn. unfold Stacker.documented_nodes. change (20 * 16) with 320.
  change (16 * 4) with 64.
  destruct (Z.ltb_spec n 320); [|lia].
  pose proof (ceil_div_spec n 64 ltac:(lia)). lia.
Qed.

Lemma locals_in_exact_range n :
  1 <= n <= Stacker.exact_limit ->
  Stacker.estimate_job_size_locals n =
    Ok {| Stacker.nodes := Stacker.documented_nodes n;
          Stacker.tasks_per_cpu := Stacker.documented_tasks_per_core n;
          Stacker.wall_time_mins :=
            Py.str_of_int (Stacker.documented_wall_minutes n) ++ Py.lit "m" |}.
Proof.
  intros [Hlo Hhi]. destruct (Z.lt_ge_cases n 320).
  - apply small_counts_follow. lia.
  - apply large_counts_follow. lia.
Qed.

(** X1: for every task count from 1 to [320 * 2^45] the sizing computed
    before the override holds all the tasks and no more than needed: it
    asks for 1 to 20 nodes, and the tasks-per-core [t] is the least number
    with [t * nodes * 16 >= n]. *)
Theorem estimate_allocation_holds_all_tasks n :
  1 <= n <= Stacker.exact_limit ->
  exists l,
    Stacker.estimate_job_size_locals n = Ok l
    /\ 1 <= Stacker.nodes l <= Stacker.max_nodes
    /\ 1 <= Stacker.tasks_per_cpu l
    /\ (Stacker.tasks_per_cpu l - 1) * (Stacker.nodes l * Stacker.cores_per_node) < n
    /\ n <= Stacker.tasks_per_cpu l * (Stacker.nodes l * Stacker.cores_per_node).
Proof.
  intros Hn. eexists. split; [apply locals_in_exact_range, Hn|].
  cbn [Stacker.nodes Stacker.tasks_per_cpu].
  destruct (documented_nodes_range n ltac:(lia)) as (Hnodes & _ & _).
  unfold Stacker.max_nodes, Stacker.cores_per_node, Stacker.documented_tasks_per_core.
  pose proof (ceil_div_spec n (Stacker.documented_nodes n * 16) ltac:(lia)).
  set (t := Stacker.ceil_div n (Stacker.documented_nodes n * 16)) in *.
  set (k := Stacker.documented_nodes n) in *.
  repeat split; try lia; nia.
Qed.

Lemma estimate_allocation_holds_all_tasks_witness :
  1 <= 1000 <= Stacker.exact_limit
  /\ exists l,
       Stacker.estimate_job_size_locals 1000 = Ok l
       /\ 1 <= Stacker.nodes l <= Stacker.max_nodes
       /\ 1 <= Stacker.tasks_per_cpu l
       /\ (Stacker.tasks_per_cpu l - 1) * (Stacker.nodes l * Stacker.cores_per_node) < 1000
       /\ 1000 <= Stacker.tasks_per_cpu l * (Stacker.nodes l * Stacker.cores_per_node).
Proof.
  assert (H : 1 <= 1000 <= Stacker.exact_limit)
    by (split; [lia | vm_compute; discriminate]).
  split; [exact H | exact (estimate_allocation_holds_all_tasks 1000 H)].
Defined.



(** ** The stages [generate] and [run] *)

(** X3: whatever its collaborators do, [generate] submits at most one job,
    and with [--no-qsub] it submits none. *)
Theorem generate_submits_at_most_once
    {Config TaskDesc Tasks : Type} (E : Stacker.env Config TaskDesc Tasks)
    (task_desc_file tag : Py.str) (no_qsub : bool) :
  let tr := (Stacker.generate E task_desc_file no_qsub tag []).1 in
  (length (filter Stacker.is_submission tr) <= 1)%nat
  /\ (no_qsub = true -> filter Stacker.is_submission tr = []).
Proof.
  assert (Hdone : forall tr : list Stacker.event,
            filter Stacker.is_submission tr = [] ->
            (length (filter Stacker.is_submission tr) <= 1)%nat
            /\ (no_qsub = true -> filter Stacker.is_submission tr = [])).
  { intros tr ->. split; [cbn; lia | reflexivity]. }
  cbv zeta. run_stage.
  destruct (Stacker._make_config_and_description E task_desc_file) as [[config td]|e];
    [|by apply Hdone].
  destruct (Stacker.save_tasks E config td) as [n|e]; [|by apply Hdone].
  destruct (n =? 0).
  { destruct (Stacker.lookup_global "sys"); by apply Hdone. }
  destruct (Stacker.estimate_job_size n) as [[nodes walltime]|e]; [|by apply Hdone].
  destruct no_qsub; [by apply Hdone|].
  destruct (Stacker.submit_subjob E _ _ _);
    (split; [vm_compute; lia | discriminate]).
Qed.

(** X4: when tasks were saved (any count from 1 up to the float range) and
    [--no-qsub] is not given, [generate] submits exactly the job [run] for
    the same task description file and tag, and always for 1 node and
    ["120m"], whatever the count; it ends as [submit_subjob] does. *)
Theorem generate_submits_fixed_size_run_job
    {Config TaskDesc Tasks : Type} (E : Stacker.env Config TaskDesc Tasks)
    (task_desc_file tag : Py.str) config task_desc n :
  Stacker._make_config_and_description E task_desc_file = Ok (config, task_desc) ->
  Stacker.save_tasks E config task_desc = Ok n ->
  1 <= n < Stacker.overflow_threshold ->
  let command :=
    [ Py.lit "run"; Py.lit "-vv"; Py.lit "--task-desc"; task_desc_file;
      Py.lit "--celery"; Py.lit "pbs-launch"; Py.lit "--tag"; tag ] in
  let params :=
    {| Stacker.qp_name := Py.lit "stack-run-" ++ tag;
       Stacker.qp_mem := Py.lit "small";
       Stacker.qp_wd := true;
       Stacker.qp_nodes := 1;
       Stacker.qp_walltime := Py.lit "120m" |} in
  let '(tr, r) := Stacker.generate E task_desc_file false tag [] in
  filter Stacker.is_submission tr = [Stacker.SubmitSubjob (Py.lit "run") command params]
  /\ r = (Stacker.submit_subjob E (Py.lit "run") command params ≫= fun _ => Ok None).
Proof.
  intros Hcfg Hsave Hn. cbv zeta.
  run_stage. rewrite Hcfg. cbv beta iota. rewrite Hsave. cbv beta iota.
  destruct (Z.eqb_spec n 0); [lia|].
  rewrite (estimate_job_size_in_range n Hn). cbv beta iota.
  destruct (Stacker.submit_subjob E _ _ _); split; reflexivity.
Qed.

Lemma generate_submits_fixed_size_run_job_witness :
  Stacker._make_config_and_description (Examples.stacker_env 500 (Ok tt) (Ok tt))
    (Py.lit "task-desc.yaml") = Ok (tt, tt)
  /\ Stacker.save_tasks (Examples.stacker_env 500 (Ok tt) (Ok tt)) tt tt = Ok 500
  /\ 1 <= 500 < Stacker.overflow_threshold
  /\ let '(tr, r) :=
       Stacker.generate (Examples.stacker_env 500 (Ok tt) (Ok tt))
         (Py.lit "task-desc.yaml") false (Py.lit "v1") [] in
     filter Stacker.is_submission tr
     = [ Stacker.SubmitSubjob (Py.lit "run")
           [ Py.lit "run"; Py.lit "-vv"; Py.lit "--task-desc"; Py.lit "task-desc.yaml";
             Py.lit "--celery"; Py.lit "pbs-launch"; Py.lit "--tag"; Py.lit "v1" ]
           {| Stacker.qp_name := Py.lit "stack-run-" ++ Py.lit "v1";
              Stacker.qp_mem := Py.lit "small";
              Stacker.qp_wd := true;
              Stacker.qp_nodes := 1;
              Stacker.qp_walltime := Py.lit "120m" |} ]
     /\ r = (Stacker.submit_subjob (Examples.stacker_env 500 (Ok tt) (Ok tt))
               (Py.lit "run")
               [ Py.lit "run"; Py.lit "-vv"; Py.lit "--task-desc"; Py.lit "task-desc.yaml";
                 Py.lit "--celery"; Py.lit "pbs-launch"; Py.lit "--tag"; Py.lit "v1" ]
               {| Stacker.qp_name := Py.lit "stack-run-" ++ Py.lit "v1";
                  Stacker.qp_mem := Py.lit "small";
                  Stacker.qp_wd := true;
                  Stacker.qp_nodes := 1;
                  Stacker.qp_walltime := Py.lit "120m" |} ≫= fun _ => Ok None).
Proof.
  assert (H : 1 <= 500 < Stacker.overflow_threshold)
    by (split; [lia | vm_compute; reflexivity]).
  split; [reflexivity|]. split; [reflexivity|]. split; [exact H|].
  exact (generate_submits_fixed_size_run_job
           (Examples.stacker_env 500 (Ok tt) (Ok tt))
           (Py.lit "task-desc.yaml") (Py.lit "v1") tt tt 500 eq_refl eq_refl H).
Defined.

(** X5: a dry run never touches the task runner: it only checks the
    existing output files and returns 0, or raises what the check
    raises. *)
Theorem run_dry_run_never_calls_runner
    {Config TaskDesc Tasks : Type} (E : Stacker.env Config TaskDesc Tasks)
    (tag task_desc_file : Py.str) :
  let '(tr, r) := Stacker.run E true tag task_desc_file [] in
  (Stacker.RunnerCall ∉ tr) /\ (Stacker.RunnerStop ∉ tr)
  /\ forall task_desc config tasks,
       Stacker.load_structure E task_desc_file = Ok task_desc ->
       Stacker.load_tasks E task_desc = Ok (config, tasks) ->
       Stacker.CheckExistingFiles ∈ tr
       /\ r = (Stacker.check_existing_files E tasks ≫= fun _ => Ok (Some 0)).
Proof.
  run_stage.
  destruct (Stacker.load_structure E task_desc_file) as [td|e].
  2:{ split; [intros Hin; not_in_log Hin|]. split; [intros Hin; not_in_log Hin|].
      intros ? ? ? [=]. }
  destruct (Stacker.load_tasks E td) as [[config tasks]|e] eqn:Htasks.
  2:{ split; [intros Hin; not_in_log Hin|]. split; [intros Hin; not_in_log Hin|].
      intros ? ? ? [= <-] Htasks'. rewrite Htasks in Htasks'. discriminate Htasks'. }
  destruct (Stacker.check_existing_files E tasks) eqn:Hcheck;
    (split; [intros Hin; not_in_log Hin|]; split; [intros Hin; not_in_log Hin|];
     intros ? ? ? [= <-] Htasks'; rewrite Htasks in Htasks';
     injection Htasks' as <- <-; split; [list_member | by rewrite Hcheck]).
Qed.

(** X6: outside a dry run, once the task list is loaded, [run] calls the
    runner once and then [stop] once; the line "Runner finished normally"
    is logged between them exactly when the runner returned; and [run]
    raises what [stop] raises, else what the runner raised, else
    returns. *)
Theorem run_outcome_after_stop
    {Config TaskDesc Tasks : Type} (E : Stacker.env Config TaskDesc Tasks)
    (tag task_desc_file : Py.str) task_desc config tasks :
  Stacker.load_structure E task_desc_file = Ok task_desc ->
  Stacker.load_tasks E task_desc = Ok (config, tasks) ->
  Stacker.run E false tag task_desc_file []
  = ( [ Stacker.LogInfo "Starting Fractional Cover processing..." [];
        Stacker.LogInfo "Tag: %r" [Stacker.VStr tag];
        Stacker.RunnerCall ]
      ++ match Stacker.runner E task_desc tasks config with
         | Ok _ => [Stacker.LogInfo "Runner finished normally, triggering shutdown." []]
         | Raise _ => []
         end
      ++ [Stacker.RunnerStop],
      match Stacker.runner_stop E, Stacker.runner E task_desc tasks config with
      | Raise e, _ => Raise e
      | Ok _, Raise e => Raise e
      | Ok _, Ok _ => Ok None
      end ).
Proof.
  intros Hload Htasks. run_stage.
  rewrite Hload. cbv beta iota. rewrite Htasks. cbv beta iota.
  destruct (Stacker.runner E task_desc tasks config) as [u|e];
    destruct (Stacker.runner_stop E) as [u'|e']; reflexivity.
Qed.

Lemma run_outcome_after_stop_witness :
  Stacker.load_structure
    (Examples.stacker_env 3 (Raise (External "worker lost")) (Raise (External "redis down")))
    (Py.lit "task-desc.yaml") = Ok tt
  /\ Stacker.load_tasks
       (Examples.stacker_env 3 (Raise (External "worker lost")) (Raise (External "redis down")))
       tt = Ok (tt, tt)
  /\ Stacker.run
       (Examples.stacker_env 3 (Raise (External "worker lost")) (Raise (External "redis down")))
       false (Py.lit "v1") (Py.lit "task-desc.yaml") []
     = ( [ Stacker.LogInfo "Starting Fractional Cover processing..." [];
           Stacker.LogInfo "Tag: %r" [Stacker.VStr (Py.lit "v1")];
           Stacker.RunnerCall; Stacker.RunnerStop ],
         Raise (External "redis down") ).
Proof.
  split; [reflexivity|]. split; [reflexivity|].
  exact (run_outcome_after_stop
           (Examples.stacker_env 3 (Raise (External "worker lost"))
              (Raise (External "redis down")))
           (Py.lit "v1") (Py.lit "task-desc.yaml") tt tt tt eq_refl eq_refl).
Defined.

(** ** The stage [submit] *)

Ltac submit_stage :=
  cbv [StackerSubmit.submit StackerSubmit.emit StackerSubmit.call StackerSubmit.stage
       Py.lift Py.raise Py.ret Py.pbind Py.bind
       mbind mret prog_bind prog_ret result_bind result_ret].

(** X7: whatever its collaborators do, [submit] calls the scheduler at
    most once, never with [--no-qsub], and never unless [init_task_app]
    was called before. *)
Theorem submit_submits_at_most_once
    {Config TimeRange Terms TaskDesc path : Type}
    (E : StackerSubmit.env Config TimeRange Terms TaskDesc path)
    (app_config project queue tag : Py.str) (no_qsub : bool) (time_range : TimeRange) :
  let tr := (StackerSubmit.submit E app_config project queue no_qsub time_range tag []).1 in
  (length (filter StackerSubmit.is_submission tr) <= 1)%nat
  /\ (no_qsub = true -> filter StackerSubmit.is_submission tr = [])
  /\ (filter StackerSubmit.is_submission tr <> [] ->
      exists before after job_type products config_path pbs_project pbs_queue,
        tr = before
             ++ StackerSubmit.InitTaskApp job_type products config_path pbs_project pbs_queue
             :: after
        /\ filter StackerSubmit.is_submission before = []).
Proof.
  assert (Hdone : forall tr : list StackerSubmit.event,
            filter StackerSubmit.is_submission tr = [] ->
            (length (filter StackerSubmit.is_submission tr) <= 1)%nat
            /\ (no_qsub = true -> filter StackerSubmit.is_submission tr = [])
            /\ (filter StackerSubmit.is_submission tr <> [] ->
                exists before after job_type products config_path pbs_project pbs_queue,
                  tr = before
                       ++ StackerSubmit.InitTaskApp job_type products config_path
                            pbs_project pbs_queue
                       :: after
                  /\ filter StackerSubmit.is_submission before = [])).
  { intros tr ->. split; [cbn; lia|]. split; [reflexivity | congruence]. }
  cbv zeta. submit_stage.
  destruct (StackerSubmit.resolve E app_config) as [p|e]; [|by apply Hdone].
  destruct (StackerSubmit.read_document E p) as [config|e]; [|by apply Hdone].
  destruct (StackerSubmit.source_product E config) as [product|e]; [|by apply Hdone].
  destruct (StackerSubmit.search_terms E time_range) as [terms|e]; [|by apply Hdone].
  destruct (StackerSubmit.init_task_app E _ _ _ _ _ _) as [[td tp]|e];
    [|by apply Hdone].
  destruct no_qsub; [by apply Hdone|].
  destruct (StackerSubmit.submit_subjob E _ _ _ _);
    (split; [vm_compute; lia|]; split; [discriminate|]; intros _;
     eexists [_], _, _, _, _, _, _; split; reflexivity).
Qed.

(** X8: when the local steps succeed and [--no-qsub] is not given,
    [submit] submits exactly the job [generate], on 1 cpu with 20G for one
    hour, named after the tag, and hands it the path of the task
    description that [init_task_app] wrote and the same tag; it ends as
    [submit_subjob] does. *)
Theorem submit_hands_task_description_to_generate
    {Config TimeRange Terms TaskDesc path : Type}
    (E : StackerSubmit.env Config TimeRange Terms TaskDesc path)
    (app_config project queue tag : Py.str) (time_range : TimeRange)
    config_path config product terms task_desc task_path :
  StackerSubmit.resolve E app_config = Ok config_path ->
  StackerSubmit.read_document E config_path = Ok config ->
  StackerSubmit.source_product E config = Ok product ->
  StackerSubmit.search_terms E time_range = Ok terms ->
  StackerSubmit.init_task_app E (Py.lit "stacking") [product] terms config_path
    project queue = Ok (task_desc, task_path) ->
  let command :=
    [ Py.lit "generate"; Py.lit "-v"; Py.lit "-v";
      Py.lit "--task-desc"; StackerSubmit.path_str E task_path;
      Py.lit "--tag"; tag ] in
  let params :=
    {| StackerSubmit.qp_mem := Py.lit "20G";
       StackerSubmit.qp_wd := true;
       StackerSubmit.qp_ncpus := 1;
       StackerSubmit.qp_walltime := Py.lit "1h";
       StackerSubmit.qp_name := Py.lit "stack-generate-" ++ tag |} in
  let '(tr, r) := StackerSubmit.submit E app_config project queue false time_range tag [] in
  filter StackerSubmit.is_submission tr
  = [StackerSubmit.SubmitSubjob (Py.lit "generate") command params]
  /\ r = (StackerSubmit.submit_subjob E (Py.lit "generate") task_desc command params
          ≫= fun _ => Ok None).
Proof.
  intros Hres Hdoc Hprod Hterms Hinit. cbv zeta. submit_stage.
  rewrite Hres. cbv beta iota. rewrite Hdoc. cbv beta iota.
  rewrite Hprod. cbv beta iota. rewrite Hterms. cbv beta iota.
  rewrite Hinit. cbv beta iota.
  destruct (StackerSubmit.submit_subjob E _ _ _ _); split; reflexivity.
Qed.

Lemma submit_hands_task_description_to_generate_witness :
  let E := Examples.submit_env (Ok tt) in
  StackerSubmit.resolve E (Py.lit "stack.yaml") = Ok (Py.lit "/g/data/stack.yaml")
  /\ StackerSubmit.read_document E (Py.lit "/g/data/stack.yaml") = Ok tt
  /\ StackerSubmit.source_product E tt = Ok (Py.lit "ls8_nbar_albers")
  /\ StackerSubmit.search_terms E tt = Ok tt
  /\ StackerSubmit.init_task_app E (Py.lit "stacking") [Py.lit "ls8_nbar_albers"] tt
       (Py.lit "/g/data/stack.yaml") (Py.lit "u46") (Py.lit "normal")
     = Ok (tt, Py.lit "jobs/stacking/task-desc.yaml")
  /\ let '(tr, r) :=
       StackerSubmit.submit E (Py.lit "stack.yaml") (Py.lit "u46") (Py.lit "normal")
         false tt (Py.lit "v1") [] in
     filter StackerSubmit.is_submission tr
     = [ StackerSubmit.SubmitSubjob (Py.lit "generate")
           [ Py.lit "generate"; Py.lit "-v"; Py.lit "-v";
             Py.lit "--task-desc"; Py.lit "jobs/stacking/task-desc.yaml";
             Py.lit "--tag"; Py.lit "v1" ]
           {| StackerSubmit.qp_mem := Py.lit "20G";
              StackerSubmit.qp_wd := true;
              StackerSubmit.qp_ncpus := 1;
              StackerSubmit.qp_walltime := Py.lit "1h";
              StackerSubmit.qp_name := Py.lit "stack-generate-" ++ Py.lit "v1" |} ]
     /\ r = Ok None.
Proof.
  cbv zeta.
  split; [reflexivity|]. split; [reflexivity|]. split; [reflexivity|].
  split; [reflexivity|]. split; [reflexivity|].
  exact (submit_hands_task_description_to_generate (Examples.submit_env (Ok tt))
           (Py.lit "stack.yaml") (Py.lit "u46") (Py.lit "normal") (Py.lit "v1") tt
           (Py.lit "/g/data/stack.yaml") tt (Py.lit "ls8_nbar_albers") tt tt
           (Py.lit "jobs/stacking/task-desc.yaml")
           eq_refl eq_refl eq_refl eq_refl eq_refl).
Defined.

(** ** Job ids and dependency arguments *)

Lemma rstrip_drops_last (f : N -> bool) (s : Py.str) (c : N) :
  f c = true -> Py.rstrip_by f (s ++ [c]) = Py.rstrip_by f s.
Proof.
  intros Hc. induction s as [|a s IH]; cbn.
  - by rewrite Hc.
  - by rewrite IH.
Qed.

Lemma lstrip_head_kept (f : N -> bool) (a : N) (s : Py.str) :
  f a = false -> Py.lstrip_by f (a :: s) = a :: s.
Proof. intros Ha. cbn. by rewrite Ha. Qed.

Lemma lstrip_head (f : N -> bool) (s : Py.str) (c : N) :
  head (Py.lstrip_by f s) = Some c -> f c = false.
Proof.
  induction s as [|a s IH]; cbn; [discriminate|].
  destruct (f a) eqn:Ha; [exact IH|]. cbn. by intros [= <-].
Qed.

Lemma rstrip_last (f : N -> bool) (s : Py.str) (c : N) :
  last (Py.rstrip_by f s) = Some c -> f c = false.
Proof.
  induction s as [|a s IH]; cbn; [discriminate|].
  destruct (Py.rstrip_by f s) as [|b t] eqn:Ht.
  - destruct (f a) eqn:Ha; cbn; [discriminate|]. by intros [= <-].
  - intros Hl. apply IH. exact Hl.
Qed.

Lemma rstrip_head (f : N -> bool) (s : Py.str) (c : N) :
  head (Py.rstrip_by f s) = Some c -> head s = Some c.
Proof.
  destruct s as [|a s]; cbn; [discriminate|].
  destruct (Py.rstrip_by f s); [destruct (f a)|]; cbn; congruence.
Qed.

(** X9: what [qsub] normally prints, a job id and a new line, gives the
    right dependency in the end.  For an id without white space at its
    ends that does not begin with a space, a backslash or the letter n,
    [submit_job] returns the id with the new line, and the next job of the
    slot is submitted with [-W depend=afterok:] and exactly the id. *)
Theorem dependency_names_the_job_id (output : Py.bytes) (a z : N) (body job_id : Py.str) :
  job_id = a :: body ->
  last job_id = Some z ->
  Py.is_space a = false -> a ∉ Py.lit " \n" -> Py.is_space z = false ->
  Py.decode_utf8 output = Ok (job_id ++ [10%N]) ->
  TileSync.parse_job_id output = Ok (job_id ++ [10%N])
  /\ TileSync.requirements_for (Some (job_id ++ [10%N]))
     = [Py.lit "-W"; Py.lit "depend=afterok:" ++ job_id].
Proof.
  intros Hhead Hlast Ha Hset Hz Hdec.
  assert (Hnl : bool_decide (10%N ∈ Py.lit " \n") = false) by (vm_compute; reflexivity).
  split.
  - unfold TileSync.parse_job_id. rewrite Hdec.
    change (Ok ?x ≫= ?k) with (k x). cbv beta. f_equal.
    unfold Py.strip_chars. rewrite Hhead.
    change ((a :: body) ++ [10%N]) with (a :: (body ++ [10%N])).
    rewrite lstrip_head_kept by (by apply bool_decide_eq_false).
    change (a :: (body ++ [10%N])) with ((a :: body) ++ [10%N]).
    by apply rstrip_keeps_last.
  - unfold TileSync.requirements_for.
    replace (Py.truthy (job_id ++ [10%N])) with true by (rewrite Hhead; reflexivity).
    do 3 f_equal. unfold Py.strip.
    rewrite Hhead.
    change ((a :: body) ++ [10%N]) with (a :: (body ++ [10%N])).
    rewrite lstrip_head_kept by exact Ha.
    change (a :: (body ++ [10%N])) with ((a :: body) ++ [10%N]).
    rewrite rstrip_drops_last by reflexivity.
    rewrite <- Hhead.
    apply last_Some in Hlast as [front ->].
    by apply rstrip_keeps_last.
Qed.

Lemma dependency_names_the_job_id_witness :
  Py.lit "70.r-man2" = 55%N :: Py.lit "0.r-man2"
  /\ last (Py.lit "70.r-man2") = Some 50%N
  /\ Py.is_space 55 = false /\ (55%N ∉ Py.lit " \n") /\ Py.is_space 50 = false
  /\ Py.decode_utf8 ("70.r-man2" +:+ Examples.nl) = Ok (Py.lit "70.r-man2" ++ [10%N])
  /\ TileSync.parse_job_id ("70.r-man2" +:+ Examples.nl) = Ok (Py.lit "70.r-man2" ++ [10%N])
  /\ TileSync.requirements_for (Some (Py.lit "70.r-man2" ++ [10%N]))
     = [Py.lit "-W"; Py.lit "depend=afterok:" ++ Py.lit "70.r-man2"].
Proof.
  assert (Hset : 55%N ∉ Py.lit " \n").
  { intros Hin. pose proof (bool_decide_eq_true_2 _ Hin) as Hb.
    vm_compute in Hb. discriminate Hb. }
  split; [reflexivity|]. split; [reflexivity|]. split; [reflexivity|].
  split; [exact Hset|]. split; [reflexivity|]. split; [reflexivity|].
  exact (dependency_names_the_job_id ("70.r-man2" +:+ Examples.nl) 55 50
           (Py.lit "0.r-man2") (Py.lit "70.r-man2")
           eq_refl eq_refl eq_refl Hset eq_refl eq_refl).
Defined.

(** X10: the job id [submit_job] reads from the output never begins or
    ends with a space, a backslash or the letter n: an id that ends in n
    comes back shortened. *)
Theorem parsed_job_id_has_no_n_at_its_ends (output : Py.bytes) (job_id : Py.str) :
  TileSync.parse_job_id output = Ok job_id ->
  forall c, head job_id = Some c \/ last job_id = Some c -> c ∉ Py.lit " \n".
Proof.
  unfold TileSync.parse_job_id.
  destruct (Py.decode_utf8 output) as [text|e]; [|discriminate].
  change (Ok text ≫= ?k) with (k text). cbv beta. intros [= <-] c Hc.
  unfold Py.strip_chars in Hc.
  intros Hin. pose proof (bool_decide_eq_true_2 _ Hin) as Hb.
  destruct Hc as [Hc|Hc].
  - apply rstrip_head, lstrip_head in Hc. congruence.
  - apply rstrip_last in Hc. congruence.
Qed.

Lemma parsed_job_id_has_no_n_at_its_ends_witness :
  TileSync.parse_job_id "123.raijin" = Ok (Py.lit "123.raiji")
  /\ forall c, head (Py.lit "123.raiji") = Some c \/ last (Py.lit "123.raiji") = Some c ->
               c ∉ Py.lit " \n".
Proof.
  split; [reflexivity|].
  exact (parsed_job_id_has_no_n_at_its_ends "123.raijin" (Py.lit "123.raiji") eq_refl).
Defined.

(** ** The tiles of the input folder *)

Lemma mapM_result_Ok {A B : Type} (f : A -> result B) (l : list A) (ys : list B) :
  mapM f l = Ok ys -> Forall2 (fun x y => f x = Ok y) l ys.
Proof.
  revert ys. induction l as [|x l IH]; intros ys; cbn.
  - intros [= <-]. constructor.
  - destruct (f x) as [y|e] eqn:Hx; cbn; [|discriminate].
    destruct (mapM f l) as [k|e]; cbn; [|discriminate].
    intros [= <-]. constructor; [exact Hx | by apply IH].
Qed.

Lemma mapM_result_Raise {A B : Type} (f : A -> result B) (l : list A) x e0 :
  x ∈ l -> f x = Raise e0 -> exists e, mapM f l = Raise e.
Proof.
  induction l as [|a l IH]; intros Hin Hx; [by apply elem_of_nil in Hin|].
  cbn. destruct (f a) as [y|e] eqn:Ha; cbn; [|eauto].
  apply elem_of_cons in Hin as [->|Hin]; [congruence|].
  destruct (IH Hin Hx) as [e ->]. cbn. eauto.
Qed.

Lemma mapM_result_elem_of {A B : Type} (f : A -> result B) (l : list A) (ys : list B) :
  mapM f l = Ok ys -> forall y, y ∈ ys <-> exists x, x ∈ l /\ f x = Ok y.
Proof.
  intros H. apply mapM_result_Ok in H.
  induction H as [|x y l ys Hxy _ IH]; intros y0.
  - split; [intros Hin; by apply elem_of_nil in Hin|].
    intros (x & Hin & _). by apply elem_of_nil in Hin.
  - rewrite elem_of_cons, IH. split.
    + intros [->|(x0 & Hin & HR)].
      * exists x. split; [apply list_elem_of_here | exact Hxy].
      * exists x0. split; [by apply list_elem_of_further | exact HR].
    + intros (x0 & Hin & HR). apply elem_of_cons in Hin as [->|Hin].
      * left. congruence.
      * right. eauto.
Qed.

Lemma sorted_nodup_strict (l : list Z) :
  StronglySorted Z.le l -> NoDup l -> StronglySorted Z.lt l.
Proof.
  induction 1 as [|x l Hl IH Hx]; intros Hnd; [constructor|].
  apply NoDup_cons in Hnd as [Hnotin Hnd].
  constructor; [by apply IH|].
  apply Forall_forall. intros y Hy.
  rewrite Forall_forall in Hx. specialize (Hx y Hy).
  assert (x <> y) by (intros ->; contradiction). lia.
Qed.

(** X11: the tiles [main] works on are the integers that [int] reads from
    the leading token of the entries of the input folder, the entry [ncml]
    left out, each once and in strictly increasing order; finding them
    changes nothing. *)
Theorem found_tiles_are_sorted_and_distinct
    {W path : Type} (E : TileSync.env W path) (folder : path)
    (st st' : TileSync.state W) (entries : list path) (tile_xs : list Z) :
  TileSync.iterdir E (TileSync.world st) folder = Ok entries ->
  TileSync.find_tile_xs E folder st = (st', Ok tile_xs) ->
  st' = st
  /\ StronglySorted Z.lt tile_xs
  /\ forall x,
       x ∈ tile_xs <->
       exists p, p ∈ entries
                 /\ TileSync.path_name E p <> Py.lit "ncml"
                 /\ TileSync.int E (Py.split_head 95 (TileSync.path_name E p)) = Ok x.
Proof.
  intros Hdir. unfold TileSync.find_tile_xs.
  cbv [mbind mret prog_bind prog_ret Py.pbind Py.ret Py.lift TileSync.ask].
  rewrite Hdir.
  destruct (mapM _ _) as [xs|e] eqn:Hxs; [|discriminate].
  intros [= <- <-]. split; [reflexivity|].
  assert (Hperm : merge_sort Z.le (elements (list_to_set xs : gset Z))
                  ≡ₚ elements (list_to_set xs : gset Z))
    by apply merge_sort_Permutation.
  split.
  - apply sorted_nodup_strict.
    + apply StronglySorted_merge_sort; apply _.
    + rewrite Hperm. apply NoDup_elements.
  - intros x. rewrite Hperm, elem_of_elements, elem_of_list_to_set.
    rewrite (mapM_result_elem_of _ _ _ Hxs). split.
    + intros (p & Hin & Hp). apply list_elem_of_filter in Hin as [Hname Hin]. eauto.
    + intros (p & Hin & Hname & Hp). exists p. split; [|exact Hp].
      apply list_elem_of_filter. eauto.
Qed.

Lemma found_tiles_are_sorted_and_distinct_witness :
  let E := Examples.tile_env [] [Py.lit "3_1"; Py.lit "-12_23"; Py.lit "ncml"; Py.lit "3_2"]
                             Examples.pbs_output in
  TileSync.iterdir E (TileSync.world Examples.fresh) Examples.data_folder
  = Ok [ Py.lit "/g/data/fc/3_1"; Py.lit "/g/data/fc/-12_23";
         Py.lit "/g/data/fc/ncml"; Py.lit "/g/data/fc/3_2" ]
  /\ TileSync.find_tile_xs E Examples.data_folder Examples.fresh
     = (Examples.fresh, Ok [-12; 3])
  /\ StronglySorted Z.lt [-12; 3].
Proof.
  cbv zeta.
  assert (Hdir : TileSync.iterdir
                   (Examples.tile_env []
                      [Py.lit "3_1"; Py.lit "-12_23"; Py.lit "ncml"; Py.lit "3_2"]
                      Examples.pbs_output)
                   (TileSync.world Examples.fresh) Examples.data_folder
                 = Ok [ Py.lit "/g/data/fc/3_1"; Py.lit "/g/data/fc/-12_23";
                        Py.lit "/g/data/fc/ncml"; Py.lit "/g/data/fc/3_2" ])
    by reflexivity.
  assert (Hfind : TileSync.find_tile_xs
                    (Examples.tile_env []
                       [Py.lit "3_1"; Py.lit "-12_23"; Py.lit "ncml"; Py.lit "3_2"]
                       Examples.pbs_output)
                    Examples.data_folder Examples.fresh
                  = (Examples.fresh, Ok [-12; 3]))
    by (vm_compute; reflexivity).
  split; [exact Hdir|]. split; [exact Hfind|].
  exact (proj1 (proj2 (found_tiles_are_sorted_and_distinct _ _ _ _ _ _ Hdir Hfind))).
Defined.

(** X12: one entry of the input folder whose leading token [int] rejects
    makes [main] fail before it prints or submits anything: the state is
    the one it started from. *)
Theorem unreadable_entry_stops_main_before_the_loop
    {W path : Type} (E : TileSync.env W path)
    (name : Py.str) (folder : path) (submit_limit c : Z) (st : TileSync.state W)
    (entries : list path) (p : path) (e0 : exn) :
  TileSync.iterdir E (TileSync.world st) (TileSync.absolute E (TileSync.world st) folder)
  = Ok entries ->
  p ∈ entries ->
  TileSync.path_name E p <> Py.lit "ncml" ->
  TileSync.int E (Py.split_head 95 (TileSync.path_name E p)) = Raise e0 ->
  exists e, TileSync.main E name folder submit_limit c st = (st, Raise e).
Proof.
  intros Hdir Hin Hname Hint.
  unfold TileSync.main, TileSync.find_tile_xs.
  cbv [mbind mret prog_bind prog_ret Py.pbind Py.ret Py.raise Py.lift TileSync.ask].
  destruct (TileSync.path_exists E (TileSync.world st) _); cbn [negb]; [|eauto].
  rewrite Hdir.
  destruct (mapM_result_Raise
              (fun p => TileSync.int E (Py.split_head 95 (TileSync.path_name E p)))
              (filter (fun p => TileSync.path_name E p <> Py.lit "ncml") entries) p e0)
    as [e ->]; [|exact Hint|eauto].
  apply list_elem_of_filter. eauto.
Qed.

Lemma unreadable_entry_stops_main_before_the_loop_witness :
  let E := Examples.tile_env [Examples.data_folder] [Py.lit "3_1"; Py.lit "README"]
                             Examples.pbs_output in
  TileSync.iterdir E (TileSync.world Examples.fresh)
    (TileSync.absolute E (TileSync.world Examples.fresh) Examples.data_folder)
  = Ok [Py.lit "/g/data/fc/3_1"; Py.lit "/g/data/fc/README"]
  /\ Py.lit "/g/data/fc/README" ∈ [Py.lit "/g/data/fc/3_1"; Py.lit "/g/data/fc/README"]
  /\ TileSync.path_name E (Py.lit "/g/data/fc/README") <> Py.lit "ncml"
  /\ TileSync.int E (Py.split_head 95 (TileSync.path_name E (Py.lit "/g/data/fc/README")))
     = Raise (ValueError (Py.lit "invalid literal for int() with base 10"))
  /\ exists e,
       TileSync.main E (Py.lit "5fc") Examples.data_folder 4 4 Examples.fresh
       = (Examples.fresh, Raise e).
Proof.
  cbv zeta.
  assert (Hin : Py.lit "/g/data/fc/README"
                ∈ [Py.lit "/g/data/fc/3_1"; Py.lit "/g/data/fc/README"])
    by list_member.
  assert (Hname : TileSync.path_name
                    (Examples.tile_env [Examples.data_folder]
                       [Py.lit "3_1"; Py.lit "README"] Examples.pbs_output)
                    (Py.lit "/g/data/fc/README") <> Py.lit "ncml")
    by (vm_compute; discriminate).
  split; [reflexivity|]. split; [exact Hin|]. split; [exact Hname|].
  split; [vm_compute; reflexivity|].
  exact (unreadable_entry_stops_main_before_the_loop
           (Examples.tile_env [Examples.data_folder] [Py.lit "3_1"; Py.lit "README"]
              Examples.pbs_output)
           (Py.lit "5fc") Examples.data_folder 4 4 Examples.fresh
           [Py.lit "/g/data/fc/3_1"; Py.lit "/g/data/fc/README"]
           (Py.lit "/g/data/fc/README")
           (ValueError (Py.lit "invalid literal for int() with base 10"))
           eq_refl Hin Hname ltac:(vm_compute; reflexivity)).
Defined.

(** ** The submissions of a run *)

Section RunFacts.

Context {W path : Type} (E : TileSync.env W path).
Variables (name : Py.str) (run_directory : path) (submit_limit c : Z).

Local Notation "'runs'" :=
  (TileSync.loop_run E name run_directory submit_limit c).

(** The calls of [submit_job] of a run are no more than the tiles it was
    given, and no more than the indices left below the cap. *)
Lemma run_submit_count i tile_xs slots evs r :
  runs i tile_xs slots evs r ->
  (length (filter TileSyncLog.is_submit evs) <= length tile_xs)%nat
  /\ (i <= submit_limit ->
      Z.of_nat (length (filter TileSyncLog.is_submit evs)) <= submit_limit - i).
Proof.
  induction 1 as [ i slots | i tile_x rest slots Hi | i tile_x rest slots evs r Hi Hrun IH
                 | i tile_x rest slots e Hi | i tile_x rest slots fs e Hi Hc
                 | i tile_x rest slots fs job_id evs r Hi Hc Hrun IH ];
    repeat first [ rewrite filter_nil
                 | rewrite filter_cons_True by exact I
                 | rewrite filter_cons_False by (intros []) ];
    cbn [length]; split; lia.
Qed.

(** A failed submission ends the run: it is the last thing logged and the
    run raises what it raised. *)
Lemma run_failure_is_last i tile_xs slots evs r :
  runs i tile_xs slots evs r ->
  forall j argv e,
    TileSync.Submit j argv (Raise e) ∈ evs ->
    r = Raise e /\ exists before, evs = before ++ [TileSync.Submit j argv (Raise e)].
Proof.
  induction 1 as [ i slots | i tile_x rest slots Hi | i tile_x rest slots evs r Hi Hrun IH
                 | i tile_x rest slots e Hi | i tile_x rest slots fs e Hi Hc
                 | i tile_x rest slots fs job_id evs r Hi Hc Hrun IH ];
    intros j argv e0 Hin.
  - by apply elem_of_nil in Hin.
  - apply list_elem_of_singleton in Hin. discriminate Hin.
  - apply elem_of_cons in Hin as [Hin|Hin]; [discriminate Hin|].
    destruct (IH _ _ _ Hin) as [-> [before ->]].
    split; [reflexivity|]. by eexists (_ :: before).
  - by apply elem_of_nil in Hin.
  - apply list_elem_of_singleton in Hin. injection Hin as -> -> ->.
    split; [reflexivity|]. by exists [].
  - do 3 (apply elem_of_cons in Hin as [Hin|Hin]; [discriminate Hin|]).
    destruct (IH _ _ _ Hin) as [-> [before ->]].
    split; [reflexivity|]. by eexists (_ :: _ :: _ :: before).
Qed.

(** Every successful submission is followed at once by its line and by
    the pause. *)
Lemma run_throttle i tile_xs slots evs r :
  runs i tile_xs slots evs r ->
  forall before j argv job_id after,
    evs = before ++ TileSync.Submit j argv (Ok job_id) :: after ->
    exists subjob_name after',
      after = TileSync.Submitted j subjob_name job_id
              :: TileSync.Sleep TileSync.SUBMIT_THROTTLE_SECS :: after'.
Proof.
  induction 1 as [ i slots | i tile_x rest slots Hi | i tile_x rest slots evs r Hi Hrun IH
                 | i tile_x rest slots e Hi | i tile_x rest slots fs e Hi Hc
                 | i tile_x rest slots fs job_id evs r Hi Hc Hrun IH ];
    intros before j argv jid after Hsplit.
  - by destruct before.
  - destruct before as [|? [|]]; discriminate Hsplit.
  - destruct before as [|ev before]; [discriminate Hsplit|].
    injection Hsplit as _ Hsplit. exact (IH _ _ _ _ _ Hsplit).
  - by destruct before.
  - destruct before as [|? [|]]; discriminate Hsplit.
  - destruct before as [|ev0 before].
    { injection Hsplit as <- _ <- <-. eauto. }
    injection Hsplit as _ Hsplit.
    destruct before as [|ev1 before]; [discriminate Hsplit|].
    injection Hsplit as _ Hsplit.
    destruct before as [|ev2 before]; [discriminate Hsplit|].
    injection Hsplit as _ Hsplit.
    exact (IH _ _ _ _ _ Hsplit).
Qed.

(** The line of the cap is printed only when the cap is the index of one
    of the tiles. *)
Lemma run_limit_line i tile_xs slots evs r limit :
  runs i tile_xs slots evs r ->
  TileSync.LimitReached limit ∈ evs ->
  limit = submit_limit /\ i <= submit_limit < i + Z.of_nat (length tile_xs).
Proof.
  induction 1 as [ i slots | i tile_x rest slots Hi | i tile_x rest slots evs r Hi Hrun IH
                 | i tile_x rest slots e Hi | i tile_x rest slots fs e Hi Hc
                 | i tile_x rest slots fs job_id evs r Hi Hc Hrun IH ];
    intros Hin.
  - by apply elem_of_nil in Hin.
  - apply list_elem_of_singleton in Hin. injection Hin as ->.
    cbn [length]. lia.
  - apply elem_of_cons in Hin as [Hin|Hin]; [discriminate Hin|].
    specialize (IH Hin). cbn [length]. lia.
  - by apply elem_of_nil in Hin.
  - apply list_elem_of_singleton in Hin. discriminate Hin.
  - do 3 (apply elem_of_cons in Hin as [Hin|Hin]; [discriminate Hin|]).
    specialize (IH Hin). cbn [length]. lia.
Qed.

(** With no slot at all, nothing is submitted. *)
Lemma run_no_slot_no_submit i tile_xs slots evs r :
  runs i tile_xs slots evs r ->
  c = 0 -> forall j argv outcome, TileSync.Submit j argv outcome ∉ evs.
Proof.
  induction 1 as [ i slots | i tile_x rest slots Hi | i tile_x rest slots evs r Hi Hrun IH
                 | i tile_x rest slots e Hi | i tile_x rest slots fs e Hi Hc
                 | i tile_x rest slots fs job_id evs r Hi Hc Hrun IH ];
    intros Hzero j argv outcome Hin; try contradiction.
  - by apply elem_of_nil in Hin.
  - apply list_elem_of_singleton in Hin. discriminate Hin.
  - apply elem_of_cons in Hin as [Hin|Hin]; [discriminate Hin|].
    exact (IH Hzero _ _ _ Hin).
  - by apply elem_of_nil in Hin.
Qed.

End RunFacts.

(** [main], once past its checks, announces the tiles and ends as the
    loop does. *)
Lemma main_runs_result {W path : Type} (E : TileSync.env W path)
    (name : Py.str) (folder : path) (submit_limit c : Z) st st' r :
  TileSync.main E name folder submit_limit c st = (st', r) ->
  (st' = st /\ exists e, r = Raise e)
  \/ exists tile_xs evs r',
       TileSync.trace st' = TileSync.trace st ++ TileSync.Found (Z.of_nat (length tile_xs)) :: evs
       /\ TileSync.loop_run E name
            (TileSync.absolute E (TileSync.world st) (TileSync.Path E (Py.lit "runs")))
            submit_limit c 0 tile_xs ∅ evs r'
       /\ r = match r' with Ok _ => Ok tt | Raise e => Raise e end.
Proof.
  unfold TileSync.main, TileSync.find_tile_xs.
  cbv [mbind mret prog_bind prog_ret Py.pbind Py.ret Py.raise Py.lift
       TileSync.ask TileSync.emit].
  destruct (TileSync.path_exists E (TileSync.world st) _); cbn [negb];
    [|intros [= <- <-]; left; eauto].
  destruct (TileSync.iterdir E (TileSync.world st) _) as [entries|e];
    [|intros [= <- <-]; left; eauto].
  destruct (mapM _ _) as [xs|e]; [|intros [= <- <-]; left; eauto].
  set (tile_xs := merge_sort Z.le (elements (list_to_set xs))).
  destruct (TileSync.submit_loop _ _ _ _ _ _ _ _ _ _) as [st1 r1] eqn:Hloop.
  apply loop_sound in Hloop as (evs & Htr & Hrun). cbn in Htr.
  intros Hres. right. exists tile_xs, evs, r1.
  destruct r1; injection Hres as <- <-;
    (split; [rewrite Htr, <- app_assoc; reflexivity|]; split; [exact Hrun | reflexivity]).
Qed.

(** The events [main] adds to the log: none, or the tiles found and then a
    run of the loop. *)
Lemma main_events {W path : Type} (E : TileSync.env W path)
    (name : Py.str) (folder : path) (submit_limit c : Z) st st' r evs :
  TileSync.main E name folder submit_limit c st = (st', r) ->
  TileSync.trace st' = TileSync.trace st ++ evs ->
  (evs = [] /\ exists e, r = Raise e)
  \/ exists tile_xs evs' r',
       evs = TileSync.Found (Z.of_nat (length tile_xs)) :: evs'
       /\ TileSync.loop_run E name
            (TileSync.absolute E (TileSync.world st) (TileSync.Path E (Py.lit "runs")))
            submit_limit c 0 tile_xs ∅ evs' r'
       /\ r = match r' with Ok _ => Ok tt | Raise e => Raise e end.
Proof.
  intros Hmain Htr.
  destruct (main_runs_result E name folder submit_limit c st st' r Hmain)
    as [[-> He] | (tile_xs & evs' & r' & Htr' & Hrun & Hr)].
  - left. split; [|exact He].
    rewrite <- (app_nil_r (TileSync.trace st)) in Htr at 1.
    by apply app_inv_head in Htr.
  - right. exists tile_xs, evs', r'. split; [|by split].
    rewrite Htr' in Htr. by apply app_inv_head in Htr.
Qed.

(** X13: [main] calls [submit_job] at most [submit_limit] times when the
    cap is not negative, and at most once per tile found. *)
Theorem main_submits_at_most_limit {W path : Type} (E : TileSync.env W path)
    (name : Py.str) (folder : path) (submit_limit c : Z) st st' r evs :
  TileSync.main E name folder submit_limit c st = (st', r) ->
  TileSync.trace st' = TileSync.trace st ++ evs ->
  (0 <= submit_limit ->
   Z.of_nat (length (filter TileSyncLog.is_submit evs)) <= submit_limit)
  /\ (forall total evs', evs = TileSync.Found total :: evs' ->
      Z.of_nat (length (filter TileSyncLog.is_submit evs)) <= total).
Proof.
  intros Hmain Htr.
  destruct (main_events E name folder submit_limit c st st' r evs Hmain Htr)
    as [[-> _] | (tile_xs & evs' & r' & -> & Hrun & _)].
  - split; [rewrite filter_nil; cbn; lia | intros ? ? [=]].
  - rewrite filter_cons_False by (intros []).
    destruct (run_submit_count E name _ submit_limit c 0 tile_xs ∅ evs' r' Hrun)
      as [Hlen Hcap].
    split; [intros Hl; specialize (Hcap Hl); lia|].
    intros total evs0 [= <- _]. lia.
Qed.

Lemma main_submits_at_most_limit_witness :
  let run := TileSync.main Examples.five_tiles_env (Py.lit "5fc") Examples.data_folder 3 4
                           Examples.fresh in
  length (filter TileSyncLog.is_submit (TileSync.trace run.1)) = 3%nat
  /\ (0 <= 3 ->
      Z.of_nat (length (filter TileSyncLog.is_submit (TileSync.trace run.1))) <= 3)
  /\ (forall total evs', TileSync.trace run.1 = TileSync.Found total :: evs' ->
      Z.of_nat (length (filter TileSyncLog.is_submit (TileSync.trace run.1))) <= total).
Proof.
  cbv zeta. split; [vm_compute; reflexivity|].
  exact (main_submits_at_most_limit Examples.five_tiles_env (Py.lit "5fc")
           Examples.data_folder 3 4 Examples.fresh _ _ _
           (surjective_pairing _) eq_refl).
Defined.

(** X14: a submission that fails is fatal to the whole run: it is the last
    thing [main] does and [main] raises what [submit_job] raised; the jobs
    submitted before stay submitted. *)
Theorem failed_submission_ends_main {W path : Type} (E : TileSync.env W path)
    (name : Py.str) (folder : path) (submit_limit c : Z) st st' r evs i argv e :
  TileSync.main E name folder submit_limit c st = (st', r) ->
  TileSync.trace st' = TileSync.trace st ++ evs ->
  TileSync.Submit i argv (Raise e) ∈ evs ->
  r = Raise e /\ exists before, evs = before ++ [TileSync.Submit i argv (Raise e)].
Proof.
  intros Hmain Htr Hin.
  destruct (main_events E name folder submit_limit c st st' r evs Hmain Htr)
    as [[-> _] | (tile_xs & evs' & r' & -> & Hrun & ->)].
  - by apply elem_of_nil in Hin.
  - apply elem_of_cons in Hin as [Hin|Hin]; [discriminate Hin|].
    destruct (run_failure_is_last E name _ submit_limit c 0 tile_xs ∅ evs' r' Hrun
                i argv e Hin) as [-> [before ->]].
    split; [reflexivity|]. by eexists (_ :: before).
Qed.

Lemma failed_submission_ends_main_witness :
  let run := TileSync.main Examples.failing_env (Py.lit "5fc") Examples.data_folder 10 4
                           Examples.fresh in
  exists argv,
    TileSync.Submit 2 argv (Raise (External "qsub: non-zero exit status"))
      ∈ TileSync.trace run.1
    /\ length (filter TileSync.is_submitted (TileSync.trace run.1)) = 2%nat
    /\ run.2 = Raise (External "qsub: non-zero exit status")
    /\ exists before,
         TileSync.trace run.1
         = before ++ [TileSync.Submit 2 argv (Raise (External "qsub: non-zero exit status"))].
Proof.
  cbv zeta.
  assert (Hin : exists argv,
            TileSync.Submit 2 argv (Raise (External "qsub: non-zero exit status"))
              ∈ TileSync.trace
                  (TileSync.main Examples.failing_env (Py.lit "5fc") Examples.data_folder
                     10 4 Examples.fresh).1).
  { remember (TileSync.main Examples.failing_env (Py.lit "5fc") Examples.data_folder
                10 4 Examples.fresh) as run eqn:Hrun.
    vm_compute in Hrun. subst run. cbn [fst TileSync.trace].
    eexists. list_member. }
  destruct Hin as [argv Hin]. exists argv.
  split; [exact Hin|]. split; [vm_compute; reflexivity|].
  exact (failed_submission_ends_main Examples.failing_env (Py.lit "5fc")
           Examples.data_folder 10 4 Examples.fresh _ _ _ 2 argv _
           (surjective_pairing _) eq_refl Hin).
Defined.

(** X15: with [concurrent_jobs = 0] nothing is ever submitted (the slot
    [i % 0] cannot be computed). *)
Theorem no_slot_no_submission {W path : Type} (E : TileSync.env W path)
    (name : Py.str) (folder : path) (submit_limit : Z) st st' r evs :
  TileSync.main E name folder submit_limit 0 st = (st', r) ->
  TileSync.trace st' = TileSync.trace st ++ evs ->
  forall i argv outcome, TileSync.Submit i argv outcome ∉ evs.
Proof.
  intros Hmain Htr i argv outcome Hin.
  destruct (main_events E name folder submit_limit 0 st st' r evs Hmain Htr)
    as [[-> _] | (tile_xs & evs' & r' & -> & Hrun & _)].
  - by apply elem_of_nil in Hin.
  - apply elem_of_cons in Hin as [Hin|Hin]; [discriminate Hin|].
    exact (run_no_slot_no_submit E name _ submit_limit 0 0 tile_xs ∅ evs' r' Hrun
             eq_refl i argv outcome Hin).
Qed.

Lemma no_slot_no_submission_witness :
  TileSync.main Examples.five_tiles_env (Py.lit "5fc") Examples.data_folder 10 0
                Examples.fresh
  = ({| TileSync.world := 0%nat; TileSync.trace := [TileSync.Found 5] |},
     Raise ZeroDivisionError)
  /\ forall i argv outcome, TileSync.Submit i argv outcome ∉ [TileSync.Found 5].
Proof.
  assert (Hmain : TileSync.main Examples.five_tiles_env (Py.lit "5fc")
                    Examples.data_folder 10 0 Examples.fresh
                  = ({| TileSync.world := 0%nat; TileSync.trace := [TileSync.Found 5] |},
                     Raise ZeroDivisionError))
    by (vm_compute; reflexivity).
  split; [exact Hmain|].
  exact (no_slot_no_submission Examples.five_tiles_env (Py.lit "5fc")
           Examples.data_folder 10 Examples.fresh _ _ _ Hmain eq_refl).
Defined.

(** X16: the line "Submit limit reached" is printed only for the cap
    itself, and only when the cap is the index of one of the tiles found:
    a negative cap, or one that is at least the number of tiles, never
    stops the loop. *)
Theorem limit_line_only_within_the_tiles {W path : Type} (E : TileSync.env W path)
    (name : Py.str) (folder : path) (submit_limit c : Z) st st' r evs limit :
  TileSync.main E name folder submit_limit c st = (st', r) ->
  TileSync.trace st' = TileSync.trace st ++ evs ->
  TileSync.LimitReached limit ∈ evs ->
  limit = submit_limit
  /\ exists total evs', evs = TileSync.Found total :: evs' /\ 0 <= submit_limit < total.
Proof.
  intros Hmain Htr Hin.
  destruct (main_events E name folder submit_limit c st st' r evs Hmain Htr)
    as [[-> _] | (tile_xs & evs' & r' & -> & Hrun & _)].
  - by apply elem_of_nil in Hin.
  - apply elem_of_cons in Hin as [Hin|Hin]; [discriminate Hin|].
    destruct (run_limit_line E name _ submit_limit c 0 tile_xs ∅ evs' r' limit Hrun Hin)
      as [-> Hrange].
    split; [reflexivity|]. eexists _, _. split; [reflexivity | lia].
Qed.

Lemma limit_line_only_within_the_tiles_witness :
  let run := TileSync.main Examples.five_tiles_env (Py.lit "5fc") Examples.data_folder 3 4
                           Examples.fresh in
  TileSync.LimitReached 3 ∈ TileSync.trace run.1
  /\ 3 = 3
  /\ exists total evs',
       TileSync.trace run.1 = TileSync.Found total :: evs' /\ 0 <= 3 < total.
Proof.
  cbv zeta.
  assert (Hin : TileSync.LimitReached 3
                ∈ TileSync.trace
                    (TileSync.main Examples.five_tiles_env (Py.lit "5fc")
                       Examples.data_folder 3 4 Examples.fresh).1).
  { remember (TileSync.main Examples.five_tiles_env (Py.lit "5fc") Examples.data_folder
                3 4 Examples.fresh) as run eqn:Hrun.
    vm_compute in Hrun. subst run. cbn [fst TileSync.trace]. list_member. }
  split; [exact Hin|].
  exact (limit_line_only_within_the_tiles Examples.five_tiles_env (Py.lit "5fc")
           Examples.data_folder 3 4 Examples.fresh _ _ _ 3
           (surjective_pairing _) eq_refl Hin).
Defined.

(** X17: submissions are throttled: every successful submission is
    followed at once by its "submitted" line and by a pause of
    [SUBMIT_THROTTLE_SECS], before anything else is done. *)
Theorem submissions_are_throttled {W path : Type} (E : TileSync.env W path)
    (name : Py.str) (folder : path) (submit_limit c : Z) st st' r evs
    before i argv job_id after :
  TileSync.main E name folder submit_limit c st = (st', r) ->
  TileSync.trace st' = TileSync.trace st ++ evs ->
  evs = before ++ TileSync.Submit i argv (Ok job_id) :: after ->
  exists subjob_name after',
    after = TileSync.Submitted i subjob_name job_id
            :: TileSync.Sleep TileSync.SUBMIT_THROTTLE_SECS :: after'.
Proof.
  intros Hmain Htr Hsplit.
  destruct (main_events E name folder submit_limit c st st' r evs Hmain Htr)
    as [[-> _] | (tile_xs & evs' & r' & -> & Hrun & _)].
  - by destruct before.
  - destruct before as [|ev before]; [discriminate Hsplit|].
    injection Hsplit as _ Hsplit.
    exact (run_throttle E name _ submit_limit c 0 tile_xs ∅ evs' r' Hrun
             before i argv job_id after Hsplit).
Qed.

Lemma submissions_are_throttled_witness :
  let run := TileSync.main Examples.rerun_env (Py.lit "5fc") Examples.data_folder 2 4
                           Examples.fresh in
  exists before argv job_id after,
    TileSync.trace run.1 = before ++ TileSync.Submit 1 argv (Ok job_id) :: after
    /\ exists subjob_name after',
         after = TileSync.Submitted 1 subjob_name job_id
                 :: TileSync.Sleep TileSync.SUBMIT_THROTTLE_SECS :: after'.
Proof.
  cbv zeta.
  assert (Hsplit : exists before argv job_id after,
            TileSync.trace
              (TileSync.main Examples.rerun_env (Py.lit "5fc") Examples.data_folder 2 4
                 Examples.fresh).1
            = before ++ TileSync.Submit 1 argv (Ok job_id) :: after).
  { remember (TileSync.main Examples.rerun_env (Py.lit "5fc") Examples.data_folder
                2 4 Examples.fresh) as run eqn:Hrun.
    vm_compute in Hrun. subst run. cbn [fst TileSync.trace].
    eexists [_; _], _, _, _. reflexivity. }
  destruct Hsplit as (before & argv & job_id & after & Hsplit).
  exists before, argv, job_id, after. split; [exact Hsplit|].
  exact (submissions_are_throttled Examples.rerun_env (Py.lit "5fc")
           Examples.data_folder 2 4 Examples.fresh _ _ _ before 1 argv job_id after
           (surjective_pairing _) eq_refl Hsplit).
Defined.

(** ** Names of the jobs *)

Lemma lit_inj (s t : string) : Py.lit s = Py.lit t -> s = t.
Proof.
  unfold Py.lit. intros H.
  rewrite <- (string_of_list_ascii_of_string s), <- (string_of_list_ascii_of_string t).
  f_equal. revert H.
  generalize (list_ascii_of_string s) (list_ascii_of_string t).
  intros l. induction l as [|a l IH]; intros [|b k]; cbn; try discriminate; [reflexivity|].
  intros [= Hab Hlk]. f_equal; [|by apply IH].
  rewrite <- (ascii_N_embedding a), <- (ascii_N_embedding b). by rewrite Hab.
Qed.

Lemma to_int_not_nil (n : Z) : Z.to_int n <> Decimal.Pos Decimal.Nil /\ Z.to_int n <> Decimal.Neg Decimal.Nil.
Proof.
  destruct n as [|p|p]; cbn; split; try discriminate;
    intros [= H]; by apply DecimalPos.Unsigned.to_uint_nonnil in H.
Qed.

Lemma str_of_int_inj (x y : Z) : Py.str_of_int x = Py.str_of_int y -> x = y.
Proof.
  unfold Py.str_of_int. intros H. apply lit_inj in H.
  apply DecimalZ.to_int_inj.
  destruct (to_int_not_nil x) as [Hx1 Hx2], (to_int_not_nil y) as [Hy1 Hy2].
  pose proof (NilZero.isi (Z.to_int x) Hx1 Hx2) as Ix.
  pose proof (NilZero.isi (Z.to_int y) Hy1 Hy2) as Iy.
  rewrite H in Ix. congruence.
Qed.

(** X19: under one name prefix different tiles get different job names
    (and so different output and log file names). *)
Theorem subjob_names_are_distinct (name : Py.str) (x y : Z) :
  x <> y -> TileSync.subjob_name name x <> TileSync.subjob_name name y.
Proof.
  unfold TileSync.subjob_name. intros Hxy H. apply Hxy.
  apply app_inv_head in H. apply app_inv_head in H. by apply str_of_int_inj.
Qed.

Lemma subjob_names_are_distinct_witness :
  -12 <> 12
  /\ TileSync.subjob_name (Py.lit "5fc") (-12) <> TileSync.subjob_name (Py.lit "5fc") 12.
Proof.
  assert (H : -12 <> 12) by discriminate.
  split; [exact H | exact (subjob_names_are_distinct (Py.lit "5fc") (-12) 12 H)].
Defined.

(** ** One job at a time in each slot *)

Lemma requirements_nil_inv (dep : option Py.str) :
  (forall job_id, dep = Some job_id -> Py.truthy job_id = true) ->
  TileSync.requirements_for dep = [] -> dep = None.
Proof.
  intros Htruthy. destruct dep as [job_id|]; [|reflexivity].
  unfold TileSync.requirements_for. rewrite (Htruthy job_id eq_refl). discriminate.
Qed.

Lemma run_first_of_slot {W path : Type} (E : TileSync.env W path)
    name run_directory submit_limit c i tile_xs slots evs r :
  TileSync.loop_run E name run_directory submit_limit c i tile_xs slots evs r ->
  (forall s job_id, slots !! s = Some job_id -> Py.truthy job_id = true) ->
  (forall k argv job_id,
     TileSync.Submit k argv (Ok job_id) ∈ evs -> Py.truthy job_id = true) ->
  forall before j argv outcome after,
    evs = before ++ TileSync.Submit j argv outcome :: after ->
    TileSync.declares argv [] ->
    slots !! (j `mod` c) = None
    /\ forall k argv' outcome',
         TileSync.Submit k argv' outcome' ∈ before -> k `mod` c <> j `mod` c.
Proof.
  induction 1 as [ i slots | i tile_x rest slots Hi | i tile_x rest slots evs r Hi Hrun IH
                 | i tile_x rest slots e Hi | i tile_x rest slots fs e Hi Hc
                 | i tile_x rest slots fs job_id evs r Hi Hc Hrun IH ];
    intros Hslots Hids before j argv outcome after Hsplit Hdecl.
  - by destruct before.
  - destruct before as [|? [|]]; discriminate Hsplit.
  - destruct before as [|ev before]; [discriminate Hsplit|].
    injection Hsplit as <- Hsplit.
    destruct (IH Hslots ltac:(intros k a id Hin; apply (Hids k a id);
                              by apply list_elem_of_further)
                 before j argv outcome after Hsplit Hdecl) as [Hnone Hbefore].
    split; [exact Hnone|]. intros k argv' outcome' Hin.
    apply elem_of_cons in Hin as [Hin|Hin]; [discriminate Hin|]. eauto.
  - by destruct before.
  - destruct before as [|? [|]]; [|discriminate Hsplit..].
    injection Hsplit as <- <- <-. split.
    + apply requirements_nil_inv; [intros id; apply Hslots|].
      symmetry. apply (declares_requirements_inj _ None _ Hdecl).
      by eexists _, _, _, _.
    + intros k argv' outcome' Hin. by apply elem_of_nil in Hin.
  - destruct before as [|ev0 before].
    { injection Hsplit as <- <- <- _. split.
      - apply requirements_nil_inv; [intros id; apply Hslots|].
        symmetry. apply (declares_requirements_inj _ None _ Hdecl).
        by eexists _, _, _, _.
      - intros k argv' outcome' Hin. by apply elem_of_nil in Hin. }
    injection Hsplit as <- Hsplit.
    destruct before as [|ev1 before]; [discriminate Hsplit|].
    injection Hsplit as <- Hsplit.
    destruct before as [|ev2 before]; [discriminate Hsplit|].
    injection Hsplit as <- Hsplit.
    assert (Hjob : Py.truthy job_id = true).
    { eapply Hids. apply list_elem_of_here. }
    assert (Hslots' : forall s id, <[i `mod` c := job_id]> slots !! s = Some id ->
                                   Py.truthy id = true).
    { intros s id. destruct (Z.eq_dec (i `mod` c) s) as [<-|Hne].
      - rewrite lookup_insert_eq. by intros [= <-].
      - rewrite lookup_insert_ne by exact Hne. apply Hslots. }
    destruct (IH Hslots' ltac:(intros k a id Hin; apply (Hids k a id);
                               by do 3 apply list_elem_of_further)
                 before j argv outcome after Hsplit Hdecl) as [Hnone Hbefore].
    assert (Hne : i `mod` c <> j `mod` c).
    { intros Heq. rewrite <- Heq, lookup_insert_eq in Hnone. discriminate Hnone. }
    rewrite lookup_insert_ne in Hnone by exact Hne.
    split; [exact Hnone|]. intros k argv' outcome' Hin.
    apply elem_of_cons in Hin as [Hin|Hin]; [by injection Hin as -> _ _|].
    do 2 (apply elem_of_cons in Hin as [Hin|Hin]; [discriminate Hin|]).
    eauto.
Qed.

(** X18: as long as the job ids [submit_job] returns are not empty, a job
    is submitted without a dependency only as the first job of its slot
    [i % concurrent_jobs]: no earlier submission of the run has the same
    slot.  Every later job of a slot waits for the one before it. *)
Theorem independent_job_is_first_of_its_slot {W path : Type} (E : TileSync.env W path)
    (name : Py.str) (folder : path) (submit_limit c : Z) st st' r evs
    before j argv outcome after :
  TileSync.main E name folder submit_limit c st = (st', r) ->
  TileSync.trace st' = TileSync.trace st ++ evs ->
  (forall k argv' job_id,
     TileSync.Submit k argv' (Ok job_id) ∈ evs -> Py.truthy job_id = true) ->
  evs = before ++ TileSync.Submit j argv outcome :: after ->
  TileSync.declares argv [] ->
  forall k argv' outcome',
    TileSync.Submit k argv' outcome' ∈ before -> k `mod` c <> j `mod` c.
Proof.
  intros Hmain Htr Hids Hsplit Hdecl.
  destruct (main_events E name folder submit_limit c st st' r evs Hmain Htr)
    as [[-> _] | (tile_xs & evs' & r' & -> & Hrun & _)].
  - by destruct before.
  - destruct before as [|ev before]; [discriminate Hsplit|].
    injection Hsplit as <- Hsplit.
    destruct (run_first_of_slot E name _ submit_limit c 0 tile_xs ∅ evs' r' Hrun
                ltac:(intros s id; rewrite lookup_empty; discriminate)
                ltac:(intros k a id Hin; apply (Hids k a id);
                      by apply list_elem_of_further)
                before j argv outcome after Hsplit Hdecl) as [_ Hbefore].
    intros k argv' outcome' Hin.
    apply elem_of_cons in Hin as [Hin|Hin]; [discriminate Hin|]. eauto.
Qed.

Lemma independent_job_is_first_of_its_slot_witness :
  let run := TileSync.main Examples.five_tiles_env (Py.lit "5fc") Examples.data_folder 10 4
                           Examples.fresh in
  (forall k argv' job_id,
     TileSync.Submit k argv' (Ok job_id) ∈ TileSync.trace run.1 -> Py.truthy job_id = true)
  /\ exists before argv outcome after,
       TileSync.trace run.1 = before ++ TileSync.Submit 1 argv outcome :: after
       /\ TileSync.declares argv []
       /\ (exists argv0 outcome0, TileSync.Submit 0 argv0 outcome0 ∈ before)
       /\ forall k argv' outcome',
            TileSync.Submit k argv' outcome' ∈ before -> k `mod` 4 <> 1 `mod` 4.
Proof.
  cbv zeta.
  eassert (Hmain : TileSync.main Examples.five_tiles_env (Py.lit "5fc")
                     Examples.data_folder 10 4 Examples.fresh = (_, _))
    by (vm_compute; reflexivity).
  rewrite Hmain. cbn [fst TileSync.trace].
  match type of Hmain with
  | _ = ({| TileSync.world := _; TileSync.trace := ?tr |}, _) => set (evs := tr) in *
  end.
  assert (Hids : forall k argv' job_id,
            TileSync.Submit k argv' (Ok job_id) ∈ evs -> Py.truthy job_id = true).
  { intros k argv' job_id Hin. unfold evs in Hin.
    repeat (apply elem_of_cons in Hin as [Hin|Hin];
            [first [discriminate Hin | injection Hin as _ _ ->; reflexivity]|]).
    by apply elem_of_nil in Hin. }
  split; [exact Hids|].
  eexists [_; _; _; _], _, _, _.
  split; [reflexivity|].
  assert (Hdecl : TileSync.declares
                    (TileSync.qsub_argv (Py.lit "/home/sync/runs/5fc_2.log")
                       (Py.lit "/home/sync/runs/5fc_2.tsv") [Py.lit "/g/data/fc/2_1"]
                       (Py.lit "5fc_2") []) [])
    by (by eexists _, _, _, _).
  split; [exact Hdecl|].
  split; [eexists _, _; list_member|].
  eapply (independent_job_is_first_of_its_slot Examples.five_tiles_env (Py.lit "5fc")
            Examples.data_folder 10 4 Examples.fresh _ _ evs _ 1);
    [exact Hmain | reflexivity | exact Hids | reflexivity | exact Hdecl].
Defined.

(** ** Running again over finished tiles *)

Lemma loop_all_done {W path : Type} (E : TileSync.env W path)
    (name : Py.str) (folder run_directory : path) (submit_limit c : Z) tile_xs :
  forall i slots st st' r,
    (forall tile_x, tile_x ∈ tile_xs ->
       TileSync.path_exists E (TileSync.world st)
         (TileSync.output_path E run_directory name tile_x) = true) ->
    TileSync.submit_loop E name folder run_directory submit_limit c i tile_xs slots st
    = (st', r) ->
    TileSync.world st' = TileSync.world st
    /\ r = Ok slots
    /\ exists evs, TileSync.trace st' = TileSync.trace st ++ evs
                   /\ filter TileSyncLog.is_submit evs = [].
Proof.
  induction tile_xs as [|tile_x rest IH]; intros i slots st st' r Hdone.
  - intros [= <- <-]. split; [reflexivity|]. split; [reflexivity|].
    exists []. by rewrite app_nil_r.
  - rewrite submit_loop_cons.
    destruct (i =? submit_limit).
    { intros [= <- <-]. split; [reflexivity|]. split; [reflexivity|].
      eexists. split; [reflexivity|]. by rewrite filter_cons_False by (intros []). }
    rewrite (Hdone tile_x) by apply list_elem_of_here.
    intros Hloop. apply IH in Hloop as (Hw & -> & evs & Htr & Hnone).
    2:{ intros t Ht. cbn [TileSync.world]. apply Hdone. by apply list_elem_of_further. }
    cbn [TileSync.world TileSync.trace] in Hw, Htr.
    split; [exact Hw|]. split; [reflexivity|].
    eexists. split; [rewrite Htr, <- app_assoc; reflexivity|].
    cbn [app]. by rewrite filter_cons_False by (intros []).
Qed.

(** X20: running the script again when the output of every tile found is
    there submits nothing and leaves the outside world as it was: [main]
    only prints. *)
Theorem rerun_over_finished_tiles_submits_nothing
    {W path : Type} (E : TileSync.env W path)
    (name : Py.str) (folder : path) (submit_limit c : Z) st st0 st' r evs tile_xs :
  TileSync.find_tile_xs E (TileSync.absolute E (TileSync.world st) folder) st
  = (st0, Ok tile_xs) ->
  (forall tile_x, tile_x ∈ tile_xs ->
     TileSync.path_exists E (TileSync.world st)
       (TileSync.output_path E
          (TileSync.absolute E (TileSync.world st) (TileSync.Path E (Py.lit "runs")))
          name tile_x) = true) ->
  TileSync.main E name folder submit_limit c st = (st', r) ->
  TileSync.trace st' = TileSync.trace st ++ evs ->
  filter TileSyncLog.is_submit evs = []
  /\ TileSync.world st' = TileSync.world st.
Proof.
  intros Hfind Hdone Hmain Htr. revert Hfind Hmain.
  unfold TileSync.main, TileSync.find_tile_xs.
  cbv [mbind mret prog_bind prog_ret Py.pbind Py.ret Py.raise Py.lift
       TileSync.ask TileSync.emit].
  assert (Hstop : (st, r) = (st', r) -> filter TileSyncLog.is_submit evs = []
                  /\ TileSync.world st' = TileSync.world st).
  { intros [= <-].
    rewrite <- (app_nil_r (TileSync.trace st)) in Htr at 1.
    apply app_inv_head in Htr as <-. by rewrite filter_nil. }
  destruct (TileSync.path_exists E (TileSync.world st) _); cbn [negb];
    [|intros _ [= <- <-]; by apply Hstop].
  destruct (TileSync.iterdir E (TileSync.world st) _) as [entries|e];
    [|discriminate].
  destruct (mapM _ _) as [xs|e]; [|discriminate].
  intros [= _ <-].
  destruct (TileSync.submit_loop _ _ _ _ _ _ _ _ _ _) as [st1 r1] eqn:Hloop.
  apply loop_all_done in Hloop as (Hw & -> & evs' & Htr' & Hnone);
    [|exact Hdone].
  cbn [TileSync.world TileSync.trace] in Hw, Htr'.
  intros [= <- <-]. rewrite Htr', <- app_assoc in Htr.
  apply app_inv_head in Htr as <-.
  cbn [app]. rewrite filter_cons_False by (intros []).
  split; [exact Hnone | exact Hw].
Qed.

Lemma rerun_over_finished_tiles_submits_nothing_witness :
  let run := TileSync.main Examples.finished_env (Py.lit "5fc") Examples.data_folder 10 4
                           Examples.fresh in
  TileSync.find_tile_xs Examples.finished_env Examples.data_folder Examples.fresh
  = (Examples.fresh, Ok [1; 2; 3])
  /\ (forall tile_x : Z, tile_x ∈ [1; 2; 3] ->
      TileSync.path_exists Examples.finished_env (TileSync.world Examples.fresh)
        (TileSync.output_path Examples.finished_env (Py.lit "/home/sync/runs")
           (Py.lit "5fc") tile_x) = true)
  /\ run.2 = Ok tt
  /\ filter TileSyncLog.is_submit (TileSync.trace run.1) = []
  /\ TileSync.world run.1 = TileSync.world Examples.fresh.
Proof.
  cbv zeta.
  assert (Hfind : TileSync.find_tile_xs Examples.finished_env Examples.data_folder
                    Examples.fresh = (Examples.fresh, Ok [1; 2; 3]))
    by (vm_compute; reflexivity).
  assert (Hdone : forall tile_x : Z, tile_x ∈ [1; 2; 3] ->
            TileSync.path_exists Examples.finished_env (TileSync.world Examples.fresh)
              (TileSync.output_path Examples.finished_env (Py.lit "/home/sync/runs")
                 (Py.lit "5fc") tile_x) = true).
  { intros tile_x Hin.
    repeat (apply elem_of_cons in Hin as [->|Hin]; [vm_compute; reflexivity|]).
    by apply elem_of_nil in Hin. }
  split; [exact Hfind|]. split; [exact Hdone|]. split; [vm_compute; reflexivity|].
  exact (rerun_over_finished_tiles_submits_nothing Examples.finished_env (Py.lit "5fc")
           Examples.data_folder 10 4 Examples.fresh _ _ _ _ _
           Hfind Hdone (surjective_pairing _) eq_refl).
Defined.
